(** * Notion Explorer: the tools of [main.py] and their rendering rules

    The program answers four tool calls ([search_notion_pages],
    [get_page_content], [get_database_content], [get_block_children]) by
    querying the Notion REST interface and turning the JSON it receives
    into text.  This file embeds the Python source function by function:

    - JSON data as Python holds it after [response.json()] ([Py.value]);
    - the dynamic operations the source applies to such data ([.get],
      [in], subscripting, iteration, [str.join], f-string interpolation),
      each returning the exception Python raises when the operand has the
      wrong dynamic type;
    - the tools as state-passing computations over a [world] that holds the
      environment, the module global [NOTION_API_KEY], the remote side and
      the log of everything the invocation did (messages to the host,
      coroutines left unawaited, printed lines, HTTP requests).  *)

From Stdlib Require Import ZArith List String Ascii Bool Lia DecimalString.
Import ListNotations.

Set Warnings "-register-all".

Local Open Scope string_scope.
Local Open Scope Z_scope.

(** ** Python values and the exceptions of dynamic typing *)

Module Py.

(** What [json.loads] produces.  A float is carried by the text Python
    prints for it (the program only prints floats and tests them for
    truth); a dict is an association list in insertion order, looked up by
    first match. *)
Inductive value : Type :=
| VNone
| VBool (b : bool)
| VInt (z : Z)
| VFloat (printed : string)
| VStr (s : string)
| VList (l : list value)
| VDict (d : list (string * value)).

Definition dict := list (string * value).

Inductive exn : Type :=
| AttributeError
| TypeError
| KeyError (key : string)
| ValueError (msg : string)
| JSONDecodeError
| TransportError.

Inductive result (A : Type) : Type :=
| Ok (a : A)
| Raise (e : exn).
Arguments Ok {A} a.
Arguments Raise {A} e.

Definition rbind {A B} (r : result A) (k : A -> result B) : result B :=
  match r with
  | Ok a => k a
  | Raise e => Raise e
  end.

Fixpoint rmap {A B} (f : A -> result B) (l : list A) : result (list B) :=
  match l with
  | [] => Ok []
  | x :: rest =>
      rbind (f x) (fun y => rbind (rmap f rest) (fun ys => Ok (y :: ys)))
  end.

(** Characters that the source writes as escapes or that cannot stand in a
    literal here. *)
Definition nl : string := String "010"%char EmptyString.
Definition dquote : ascii := "034"%char.
Definition squote : ascii := "039"%char.
Definition backslash : ascii := "092"%char.

(** [sep.join(parts)] on parts already known to be strings. *)
Fixpoint join_strings (sep : string) (parts : list string) : string :=
  match parts with
  | [] => EmptyString
  | [p] => p
  | p :: rest => p ++ sep ++ join_strings sep rest
  end.

(** [s * n]: a count of zero or less gives the empty string. *)
Fixpoint repeat_string (s : string) (n : nat) : string :=
  match n with
  | O => EmptyString
  | S k => s ++ repeat_string s k
  end.

Definition str_mul (s : string) (n : Z) : string := repeat_string s (Z.to_nat n).

(** *** [str] and [repr] *)

Definition str_of_Z (z : Z) : string := NilZero.string_of_int (Z.to_int z).

Definition hex_digit (n : N) : ascii :=
  if (n <? 10)%N then ascii_of_N (48 + n) else ascii_of_N (87 + n).

Fixpoint has_char (c : ascii) (s : string) : bool :=
  match s with
  | EmptyString => false
  | String a rest => Ascii.eqb a c || has_char c rest
  end.

(** One character of a string's [repr] between quotes [q].  Bytes from 128
    up belong to multi-byte characters and are copied, which is what
    Python does for every printable character. *)
Definition repr_char (q c : ascii) : string :=
  let n := N_of_ascii c in
  if Ascii.eqb c q || Ascii.eqb c backslash then String backslash (String c EmptyString)
  else if (n =? 9)%N then String backslash "t"
  else if (n =? 10)%N then String backslash "n"
  else if (n =? 13)%N then String backslash "r"
  else if (n <? 32)%N || (n =? 127)%N then
    String backslash (String "x"%char
      (String (hex_digit (n / 16)) (String (hex_digit (n mod 16)) EmptyString)))
  else String c EmptyString.

Fixpoint repr_chars (q : ascii) (s : string) : string :=
  match s with
  | EmptyString => EmptyString
  | String c rest => repr_char q c ++ repr_chars q rest
  end.

(** [repr] of a [str]: single quotes, unless the text has a single quote
    and no double quote. *)
Definition repr_str (s : string) : string :=
  let q := if has_char squote s && negb (has_char dquote s) then dquote else squote in
  String q (repr_chars q s ++ String q EmptyString).

Fixpoint repr (v : value) : string :=
  match v with
  | VNone => "None"
  | VBool true => "True"
  | VBool false => "False"
  | VInt z => str_of_Z z
  | VFloat printed => printed
  | VStr s => repr_str s
  | VList l => "[" ++ join_strings ", " (map repr l) ++ "]"
  | VDict d =>
      "{" ++ join_strings ", "
               (map (fun kv => match kv with
                               | (k, x) => repr_str k ++ ": " ++ repr x
                               end) d) ++ "}"
  end.

(** [str(v)], which is what an f-string field [{v}] inserts. *)
Definition str (v : value) : string :=
  match v with
  | VStr s => s
  | _ => repr v
  end.

(** [str] of an [Optional[str]] variable. *)
Definition str_opt (o : option string) : string :=
  match o with
  | Some s => s
  | None => "None"
  end.

(** *** Truth, lookup, membership, iteration *)

Definition is_empty (s : string) : bool :=
  match s with
  | EmptyString => true
  | _ => false
  end.

Definition truthy (v : value) : bool :=
  match v with
  | VNone => false
  | VBool b => b
  | VInt z => negb (z =? 0)
  | VFloat printed => negb (String.eqb printed "0.0" || String.eqb printed "-0.0")
  | VStr s => negb (is_empty s)
  | VList l => match l with [] => false | _ => true end
  | VDict d => match d with [] => false | _ => true end
  end.

Definition truthy_opt (o : option string) : bool :=
  match o with
  | Some s => negb (is_empty s)
  | None => false
  end.

Fixpoint lookup (k : string) (d : dict) : option value :=
  match d with
  | [] => None
  | (k', v) :: rest => if String.eqb k' k then Some v else lookup k rest
  end.

Definition has_key (k : string) (d : dict) : bool :=
  match lookup k d with
  | Some _ => true
  | None => false
  end.

(** [d[k] = v] on a dict: an existing key keeps its place. *)
Fixpoint setitem (d : dict) (k : string) (v : value) : dict :=
  match d with
  | [] => [(k, v)]
  | (k', v') :: rest =>
      if String.eqb k' k then (k', v) :: rest else (k', v') :: setitem rest k v
  end.

(** [d.get(k, default)] where [d] is known to be a dict. *)
Definition dict_get (d : dict) (k : string) (default : value) : value :=
  match lookup k d with
  | Some v => v
  | None => default
  end.

(** [x.get(k, default)]: only a dict has the method. *)
Definition get (x : value) (k : string) (default : value) : result value :=
  match x with
  | VDict d => Ok (dict_get d k default)
  | _ => Raise AttributeError
  end.

(** [x == "lit"]: a string literal equals only an equal string. *)
Definition eq_str (x : value) (lit : string) : bool :=
  match x with
  | VStr s => String.eqb s lit
  | _ => false
  end.

Definition is_substring (needle hay : string) : bool :=
  match String.index 0 needle hay with
  | Some _ => true
  | None => false
  end.

(** ["lit" in x]: key test on a dict, element test on a list, substring
    test on a string, [TypeError] on anything else. *)
Definition str_in (lit : string) (x : value) : result bool :=
  match x with
  | VDict d => Ok (has_key lit d)
  | VList l => Ok (existsb (fun e => eq_str e lit) l)
  | VStr s => Ok (is_substring lit s)
  | _ => Raise TypeError
  end.

(** [key in d] for a dict [d] and an arbitrary key: lists and dicts cannot
    be hashed; a key that is not a string is in no JSON object. *)
Definition key_in (key : value) (d : dict) : result bool :=
  match key with
  | VStr k => Ok (has_key k d)
  | VList _ | VDict _ => Raise TypeError
  | _ => Ok false
  end.

(** [d[key]] for a dict [d] and an arbitrary key. *)
Definition dict_getitem (d : dict) (key : value) : result value :=
  match key with
  | VStr k =>
      match lookup k d with
      | Some v => Ok v
      | None => Raise (KeyError k)
      end
  | VList _ | VDict _ => Raise TypeError
  | other => Raise (KeyError (repr other))
  end.

(** [x["lit"]]: lists and strings take integer indices only. *)
Definition getitem (x : value) (lit : string) : result value :=
  match x with
  | VDict d => dict_getitem d (VStr lit)
  | _ => Raise TypeError
  end.

Fixpoint chars (s : string) : list value :=
  match s with
  | EmptyString => []
  | String c rest => VStr (String c EmptyString) :: chars rest
  end.

(** What [for x in v] ranges over. *)
Definition iter (v : value) : result (list value) :=
  match v with
  | VList l => Ok l
  | VDict d => Ok (map (fun kv => VStr (fst kv)) d)
  | VStr s => Ok (chars s)
  | _ => Raise TypeError
  end.

(** [len(v)] *)
Definition len (v : value) : result Z :=
  match v with
  | VList l => Ok (Z.of_nat (List.length l))
  | VDict d => Ok (Z.of_nat (List.length d))
  | VStr s => Ok (Z.of_nat (String.length s))
  | _ => Raise TypeError
  end.

(** [v.items()] *)
Definition items (v : value) : result dict :=
  match v with
  | VDict d => Ok d
  | _ => Raise AttributeError
  end.

Definition as_str (v : value) : result string :=
  match v with
  | VStr s => Ok s
  | _ => Raise TypeError
  end.

(** [sep.join(parts)]: every part has to be a [str]. *)
Definition join (sep : string) (parts : list value) : result string :=
  rbind (rmap as_str parts) (fun ss => Ok (join_strings sep ss)).

End Py.

Import Py.

Declare Scope py_scope.
Delimit Scope py_scope with py.
Notation "x <- r ;; k" := (rbind r (fun x => k))
  (at level 61, r at next level, right associativity) : py_scope.
Local Open Scope py_scope.

(** ** The block renderer ([format_block], main.py 201-351) *)

(** The comprehension over [runs] that asks every [text_item] for its
    [plain_text] (the empty string when the key is missing), followed by
    [str.join] on the empty separator: all runs are asked first, then the
    texts are joined. *)
Definition plain_text (runs : value) : result string :=
  parts <- iter runs ;;
  texts <- rmap (fun text_item => get text_item "plain_text" (VStr EmptyString)) parts ;;
  join EmptyString texts.

(** [content.get(field, [])] fed to the comprehension above. *)
Definition text_of (content : value) (field : string) : result string :=
  runs <- get content field (VList []) ;;
  plain_text runs.

Definition children_note : string :=
  "[This block has child blocks that aren't displayed here]".

(** The line (or, for a code block, the lines) appended to [result] by the
    branch that matches [block_type]. *)
Definition block_line (block_type content : value) (indent_str : string) : result string :=
  if eq_str block_type "paragraph" then
    text <- text_of content "rich_text" ;;
    Ok (indent_str ++ text)
  else if eq_str block_type "heading_1" then
    text <- text_of content "rich_text" ;;
    Ok (indent_str ++ "# " ++ text)
  else if eq_str block_type "heading_2" then
    text <- text_of content "rich_text" ;;
    Ok (indent_str ++ "## " ++ text)
  else if eq_str block_type "heading_3" then
    text <- text_of content "rich_text" ;;
    Ok (indent_str ++ "### " ++ text)
  else if eq_str block_type "bulleted_list_item" then
    text <- text_of content "rich_text" ;;
    Ok (indent_str ++ "• " ++ text)
  else if eq_str block_type "numbered_list_item" then
    text <- text_of content "rich_text" ;;
    Ok (indent_str ++ "1. " ++ text)
  else if eq_str block_type "to_do" then
    text <- text_of content "rich_text" ;;
    flag <- get content "checked" (VBool false) ;;
    let checked := if truthy flag then "✓" else "☐" in
    Ok (indent_str ++ checked ++ " " ++ text)
  else if eq_str block_type "toggle" then
    text <- text_of content "rich_text" ;;
    Ok (indent_str ++ "▶ " ++ text)
  else if eq_str block_type "code" then
    text <- text_of content "rich_text" ;;
    language <- get content "language" (VStr EmptyString) ;;
    Ok (indent_str ++ "```" ++ str language ++ nl
        ++ indent_str ++ text ++ nl
        ++ indent_str ++ "```")
  else if eq_str block_type "image" then
    caption <- text_of content "caption" ;;
    has_file <- str_in "file" content ;;
    url <- (if has_file then
              file <- getitem content "file" ;;
              get file "url" (VStr EmptyString)
            else
              has_external <- str_in "external" content ;;
              if has_external then
                external <- getitem content "external" ;;
                get external "url" (VStr EmptyString)
              else Ok (VStr EmptyString)) ;;
    let caption_text := if is_empty caption then EmptyString else " - " ++ caption in
    Ok (indent_str ++ "[Image" ++ caption_text ++ "](" ++ str url ++ ")")
  else if eq_str block_type "divider" then
    Ok (indent_str ++ "---")
  else if eq_str block_type "callout" then
    text <- text_of content "rich_text" ;;
    icon <- get content "icon" (VDict []) ;;
    emoji <- get icon "emoji" (VStr EmptyString) ;;
    Ok (indent_str ++ str emoji ++ " | " ++ text)
  else if eq_str block_type "quote" then
    text <- text_of content "rich_text" ;;
    Ok (indent_str ++ "> " ++ text)
  else if eq_str block_type "table" then
    Ok (indent_str ++ "[Table - use get_table_content to view]")
  else
    Ok (indent_str ++ "[" ++ str block_type ++ " block]").

(** [format_block(block, indent)].  The parameter is a dict, as annotated;
    callers that hold an arbitrary JSON value go through
    [format_block_value]. *)
Definition format_block (block : dict) (indent : Z) : result string :=
  let block_type := dict_get block "type" VNone in
  let block_id := dict_get block "id" VNone in
  let has_children := dict_get block "has_children" (VBool false) in
  let indent_str := str_mul "  " indent in
  unsupported <- (if negb (truthy block_type) then Ok true
                  else present <- key_in block_type block ;; Ok (negb present)) ;;
  if unsupported : bool then
    Ok (indent_str ++ "[Unsupported block type: " ++ str block_type ++ "]")
  else
    content <- dict_getitem block block_type ;;
    line <- block_line block_type content indent_str ;;
    let lines := [line] in
    let lines := if truthy has_children
                 then List.app lines [indent_str ++ children_note]
                 else lines in
    Ok (join_strings nl lines).

(** [format_block(block)] on an element of a response list: anything but a
    dict fails at [block.get("type")]. *)
Definition format_block_value (block : value) (indent : Z) : result string :=
  match block with
  | VDict d => format_block d indent
  | _ => Raise AttributeError
  end.

(** ** Search results (main.py 89-132) *)

(** [if title_parts: title = <the joined plain_text of the parts>],
    with the title left at [default] otherwise. *)
Definition title_from (title_parts : value) (default : string) : result string :=
  if truthy title_parts then plain_text title_parts else Ok default.

(** The title of one search hit, chosen by its [object] field. *)
Definition item_title (item item_type : value) : result string :=
  if eq_str item_type "page" then
    has_properties <- str_in "properties" item ;;
    nested <- (if has_properties : bool then
                 properties <- getitem item "properties" ;;
                 str_in "title" properties
               else Ok false) ;;
    if nested : bool then
      properties <- getitem item "properties" ;;
      title_prop <- getitem properties "title" ;;
      title_parts <- get title_prop "title" (VList []) ;;
      title_from title_parts "Untitled"
    else
      has_title <- str_in "title" item ;;
      if has_title : bool then
        title_parts <- getitem item "title" ;;
        title_from title_parts "Untitled"
      else Ok "Untitled"
  else if eq_str item_type "database" then
    has_title <- str_in "title" item ;;
    if has_title : bool then
      title_parts <- getitem item "title" ;;
      title_from title_parts "Untitled"
    else Ok "Untitled"
  else Ok "Untitled".

(** One pass of the loop [for item in results]: the text appended to
    [output]. *)
Definition format_item (item : value) : result string :=
  item_id <- get item "id" (VStr "Unknown ID") ;;
  item_type <- get item "object" (VStr "unknown") ;;
  title <- item_title item item_type ;;
  url <- get item "url" (VStr "No URL") ;;
  last_edited <- get item "last_edited_time" (VStr "Unknown") ;;
  Ok ("- " ++ title ++ " (" ++ str item_type ++ ")" ++ nl
      ++ "  ID: " ++ str item_id ++ nl
      ++ "  URL: " ++ str url ++ nl
      ++ "  Last Edited: " ++ str last_edited).

(** What [search_notion_pages] returns for the decoded body of a 200
    response. *)
Definition format_search (data : value) : result string :=
  results <- get data "results" (VList []) ;;
  if negb (truthy results) then Ok "No results found"
  else
    hits <- iter results ;;
    output <- rmap format_item hits ;;
    Ok (join_strings (nl ++ nl) output).

(** ** Page report (main.py 170-198) *)

Definition page_title (page_data : value) : result string :=
  has_properties <- str_in "properties" page_data ;;
  if has_properties : bool then
    properties <- getitem page_data "properties" ;;
    by_title <- get properties "title" VNone ;;
    title_prop <- (if truthy by_title then Ok by_title
                   else
                     properties' <- getitem page_data "properties" ;;
                     get properties' "Name" VNone) ;;
    usable <- (if truthy title_prop then str_in "title" title_prop else Ok false) ;;
    if usable : bool then
      title_parts <- getitem title_prop "title" ;;
      title_from title_parts "Untitled"
    else Ok "Untitled"
  else Ok "Untitled".

(** The loop over blocks shared by [get_page_content] and
    [get_block_children]: blocks that render to the empty string are
    dropped. *)
Fixpoint render_blocks (blocks : list value) : result (list string) :=
  match blocks with
  | [] => Ok []
  | block :: rest =>
      block_content <- format_block_value block 0 ;;
      more <- render_blocks rest ;;
      Ok (if is_empty block_content then more else block_content :: more)
  end.

Definition format_page (page_data blocks_data : value) : result string :=
  title <- page_title page_data ;;
  page_id <- get page_data "id" VNone ;;
  url <- get page_data "url" VNone ;;
  last_edited <- get page_data "last_edited_time" VNone ;;
  let head := ["# " ++ title;
               "Page ID: " ++ str page_id;
               "URL: " ++ str url;
               "Last Edited: " ++ str last_edited;
               nl ++ "## Content:" ++ nl] in
  results <- get blocks_data "results" (VList []) ;;
  blocks <- iter results ;;
  rendered <- render_blocks blocks ;;
  Ok (join_strings nl (List.app head rendered)).

(** ** Block children report (main.py 497-510) *)

Definition format_children (data : value) : result string :=
  results <- get data "results" (VList []) ;;
  if negb (truthy results) then Ok "This block has no children."
  else
    blocks <- iter results ;;
    output <- render_blocks blocks ;;
    Ok (join_strings nl output).

(** ** Database report (main.py 396-473) *)

(** [prop_type == name and name in prop_data] *)
Definition tagged (prop_type prop_data : value) (name : string) : result bool :=
  if eq_str prop_type name then str_in name prop_data else Ok false.

(** The [name] of every option (the empty string when missing), joined by
    a comma and a space. *)
Definition option_names (options : value) : result string :=
  opts <- iter options ;;
  names <- rmap (fun option => get option "name" (VStr EmptyString)) opts ;;
  join ", " names.

(** [prop_value += suffix] for a string [suffix]: concatenation on a
    string, extension by the characters on a list, [TypeError] on the
    rest. *)
Definition iadd_str (prop_value : value) (suffix : string) : result value :=
  match prop_value with
  | VStr s => Ok (VStr (s ++ suffix))
  | VList l => Ok (VList (List.app l (chars suffix)))
  | _ => Raise TypeError
  end.

(** [x or "N/A"] *)
Definition or_na (x : value) : value :=
  if truthy x then x else VStr "N/A".

(** The [if]/[elif] chain that extracts [prop_value] from one property of a
    database entry. *)
Definition property_value (prop_data : value) : result value :=
  prop_type <- get prop_data "type" (VStr "unknown") ;;
  is_title <- tagged prop_type prop_data "title" ;;
  if is_title : bool then
    title_parts <- getitem prop_data "title" ;;
    text <- plain_text title_parts ;;
    Ok (VStr text)
  else
  is_rich_text <- tagged prop_type prop_data "rich_text" ;;
  if is_rich_text : bool then
    text_parts <- getitem prop_data "rich_text" ;;
    text <- plain_text text_parts ;;
    Ok (VStr text)
  else
  is_number <- tagged prop_type prop_data "number" ;;
  if is_number : bool then
    getitem prop_data "number"
  else
  is_select <- (has <- tagged prop_type prop_data "select" ;;
                if has : bool then
                  chosen <- getitem prop_data "select" ;; Ok (truthy chosen)
                else Ok false) ;;
  if is_select : bool then
    chosen <- getitem prop_data "select" ;;
    get chosen "name" (VStr EmptyString)
  else
  is_multi_select <- tagged prop_type prop_data "multi_select" ;;
  if is_multi_select : bool then
    options <- getitem prop_data "multi_select" ;;
    names <- option_names options ;;
    Ok (VStr names)
  else
  is_date <- (has <- tagged prop_type prop_data "date" ;;
              if has : bool then
                date_obj <- getitem prop_data "date" ;; Ok (truthy date_obj)
              else Ok false) ;;
  if is_date : bool then
    date_obj <- getitem prop_data "date" ;;
    start <- get date_obj "start" (VStr EmptyString) ;;
    end_ <- get date_obj "end" (VStr EmptyString) ;;
    if truthy end_ then iadd_str start (" to " ++ str end_) else Ok start
  else
  is_checkbox <- tagged prop_type prop_data "checkbox" ;;
  if is_checkbox : bool then
    flag <- getitem prop_data "checkbox" ;;
    Ok (VStr (if truthy flag then "✓" else "☐"))
  else
  is_url <- tagged prop_type prop_data "url" ;;
  if is_url : bool then
    x <- getitem prop_data "url" ;; Ok (or_na x)
  else
  is_email <- tagged prop_type prop_data "email" ;;
  if is_email : bool then
    x <- getitem prop_data "email" ;; Ok (or_na x)
  else
  is_phone_number <- tagged prop_type prop_data "phone_number" ;;
  if is_phone_number : bool then
    x <- getitem prop_data "phone_number" ;; Ok (or_na x)
  else Ok (VStr "N/A").

(** The line appended for one property: [f"- {prop_name}: {prop_value}"]. *)
Definition property_line (prop_name : string) (prop_data : value) : result string :=
  prop_value <- property_value prop_data ;;
  Ok ("- " ++ prop_name ++ ": " ++ str prop_value).

(** The lines appended for entry number [i]. *)
Definition entry_lines (i : Z) (entry : value) : result (list string) :=
  entry_id <- get entry "id" VNone ;;
  url <- get entry "url" VNone ;;
  properties <- get entry "properties" (VDict []) ;;
  props <- items properties ;;
  lines <- rmap (fun kv => property_line (fst kv) (snd kv)) props ;;
  Ok ((nl ++ "### Entry " ++ str_of_Z i)
        :: ("ID: " ++ str entry_id)
        :: ("URL: " ++ str url)
        :: lines).

(** [for i, entry in enumerate(entries, 1)] *)
Fixpoint entries_lines (i : Z) (entries : list value) : result (list string) :=
  match entries with
  | [] => Ok []
  | entry :: rest =>
      lines <- entry_lines i entry ;;
      more <- entries_lines (i + 1) rest ;;
      Ok (List.app lines more)
  end.

Definition schema_line (prop_name : string) (prop_data : value) : result string :=
  prop_type <- get prop_data "type" (VStr "unknown") ;;
  Ok ("- " ++ prop_name ++ ": " ++ str prop_type).

Definition format_database (db_data query_data : value) : result string :=
  has_title <- str_in "title" db_data ;;
  db_title <- (if has_title : bool then
                 title_parts <- getitem db_data "title" ;;
                 title_from title_parts "Untitled Database"
               else Ok "Untitled Database") ;;
  db_id <- get db_data "id" VNone ;;
  url <- get db_data "url" VNone ;;
  let head := ["# " ++ db_title;
               "Database ID: " ++ str db_id;
               "URL: " ++ str url;
               nl ++ "## Database Schema:"] in
  schema <- get db_data "properties" (VDict []) ;;
  columns <- items schema ;;
  schema_lines <- rmap (fun kv => schema_line (fst kv) (snd kv)) columns ;;
  entries <- get query_data "results" (VList []) ;;
  count <- len entries ;;
  rows <- iter entries ;;
  body <- entries_lines 1 rows ;;
  Ok (join_strings nl
        (List.app head
           (List.app schema_lines
              ((nl ++ "## Database Entries (" ++ str_of_Z count ++ "):") :: body)))).

(** ** The world of one tool invocation *)

Inductive method : Type := GET | POST.

(** A request as [client.get(url, headers=...)] or
    [client.post(url, headers=..., json=payload)] sends it. *)
Record request : Type := {
  req_method : method;
  req_url : string;
  req_headers : list (string * string);
  req_json : option dict
}.

(** The three things the program reads from a response: [status_code],
    [text] and [json()], which fails when the body is not JSON. *)
Record response : Type := {
  status_code : Z;
  text : string;
  json : option value
}.

(** What an invocation does besides returning.  [CtxError msg] is an
    error message delivered to the host by the context, which is what
    running the coroutine of [ctx.error(msg)] does; [Unawaited msg] is
    such a coroutine built by the call and dropped without being awaited,
    so that its body never runs.  The others are calls of [logger.info],
    of [print], and HTTP requests. *)
Inductive event : Type :=
| CtxError (msg : string)
| Unawaited (msg : string)
| LogInfo (msg : string) (arg : string)
| Printed (line : string)
| Sent (r : request).

(** [environ] is what [os.getenv("NOTION_API_KEY")] answers,
    [NOTION_API_KEY] the module global, [remote] the other side of the
    wire (given the number of requests sent before; no answer means the
    HTTP layer raised), [log] the events so far, oldest first. *)
Record world : Type := {
  environ : option string;
  NOTION_API_KEY : option string;
  remote : nat -> request -> option response;
  log : list event
}.

(** The request context handed to a tool; the parameter defaults to
    [None]. *)
Inductive Context : Type := HostContext.

Definition tool (A : Type) : Type := world -> result A * world.

Definition ret {A} (a : A) : tool A := fun w => (Ok a, w).

Definition raise {A} (e : exn) : tool A := fun w => (Raise e, w).

Definition bind {A B} (t : tool A) (k : A -> tool B) : tool B :=
  fun w =>
    match t w with
    | (Ok a, w') => k a w'
    | (Raise e, w') => (Raise e, w')
    end.

Definition lift {A} (r : result A) : tool A := fun w => (r, w).

(** The world after one more event. *)
Definition with_event (w : world) (e : event) : world :=
  {| environ := environ w;
     NOTION_API_KEY := NOTION_API_KEY w;
     remote := remote w;
     log := List.app (log w) [e] |}.

(** The world after an assignment to the global. *)
Definition with_key (w : world) (key : option string) : world :=
  {| environ := environ w;
     NOTION_API_KEY := key;
     remote := remote w;
     log := log w |}.

Definition emit (e : event) : tool unit :=
  fun w => (Ok tt, with_event w e).

(** The HTTP requests of a log, in order. *)
Fixpoint network_calls (l : list event) : list request :=
  match l with
  | [] => []
  | Sent r :: rest => r :: network_calls rest
  | _ :: rest => network_calls rest
  end.

(** Sending a request: it is logged, then the remote side answers or the
    HTTP layer raises. *)
Definition send (r : request) : tool response :=
  fun w =>
    let n := List.length (network_calls (log w)) in
    match remote w n r with
    | Some resp => (Ok resp, with_event w (Sent r))
    | None => (Raise TransportError, with_event w (Sent r))
    end.

Declare Scope tool_scope.
Delimit Scope tool_scope with tool.
Notation "x <~ t ;; k" := (bind t (fun x => k))
  (at level 61, t at next level, right associativity) : tool_scope.
Notation "t ;;; k" := (bind t (fun _ => k))
  (at level 61, right associativity) : tool_scope.
Local Open Scope tool_scope.

(** ** Credential and headers (main.py 12-44) *)

Definition NOTION_VERSION : string := "2022-06-28".

Definition missing_key_notice : string :=
  "NOTION_API_KEY environment variable is not set. Please set it before making API calls.".

Definition missing_key_error : exn :=
  ValueError "NOTION_API_KEY environment variable is not set".

(** [ctx.error(msg)] as [check_api_key] writes it, a plain call with no
    [await] inside a plain [def].  [Context.error] is a coroutine function
    of the host library, so the call only builds the coroutine, which is
    dropped: no message reaches the host.  With no context passed it is an
    attribute access on [None]. *)
Definition ctx_error (ctx : option Context) (msg : string) : tool unit :=
  match ctx with
  | Some _ => emit (Unawaited msg)
  | None => raise AttributeError
  end.

(** [check_api_key(ctx)]: the global is refreshed from the environment on
    every call. *)
Definition check_api_key (ctx : option Context) : tool unit :=
  fun w =>
    let w1 := with_key w (environ w) in
    if negb (truthy_opt (NOTION_API_KEY w1)) then
      (ctx_error ctx missing_key_notice ;;;
       raise missing_key_error) w1
    else ret tt w1.

(** The headers built from a given value of the global. *)
Definition bearer_headers (key : option string) : list (string * string) :=
  [("Authorization", "Bearer " ++ str_opt key);
   ("Content-Type", "application/json");
   ("Notion-Version", NOTION_VERSION)].

(** [get_headers()] reads the global. *)
Definition get_headers : tool (list (string * string)) :=
  fun w => (Ok (bearer_headers (NOTION_API_KEY w)), w).

Definition client_get (url : string) : tool response :=
  headers <~ get_headers ;;
  send {| req_method := GET; req_url := url; req_headers := headers; req_json := None |}.

Definition client_post (url : string) (payload : dict) : tool response :=
  headers <~ get_headers ;;
  send {| req_method := POST; req_url := url; req_headers := headers;
          req_json := Some payload |}.

(** [response.json()] *)
Definition response_json (r : response) : result value :=
  match json r with
  | Some v => Ok v
  | None => Raise JSONDecodeError
  end.

(** [f"{prefix}: {response.status_code} - {response.text}"] *)
Definition error_text (prefix : string) (r : response) : string :=
  prefix ++ ": " ++ str_of_Z (status_code r) ++ " - " ++ text r.

(** ** The four tools *)

(** The request body of a search (main.py 70-81). *)
Definition search_payload (query filter_type : option string) (page_size : Z) : dict :=
  let payload : dict := [] in
  let payload :=
    match query with
    | Some q => if truthy_opt query then setitem payload "query" (VStr q) else payload
    | None => payload
    end in
  let payload :=
    if truthy (VInt page_size)
    then setitem payload "page_size" (VInt (Z.min 100 page_size))
    else payload in
  let payload :=
    match filter_type with
    | Some f =>
        if truthy_opt filter_type && (String.eqb f "page" || String.eqb f "database")
        then setitem payload "filter"
               (VDict [("value", VStr f); ("property", VStr "object")])
        else payload
    | None => payload
    end in
  setitem payload "sort"
    (VDict [("direction", VStr "descending"); ("timestamp", VStr "last_edited_time")]).

Definition search_url : string := "https://api.notion.com/v1/search".

Definition search_notion_pages (query filter_type : option string) (page_size : Z)
    (ctx : option Context) : tool string :=
  check_api_key ctx ;;;
  let payload := search_payload query filter_type page_size in
  emit (Printed ("payload " ++ repr (VDict payload))) ;;;
  response <~ client_post search_url payload ;;
  shown <~ lift (response_json response) ;;
  emit (Printed (str shown)) ;;;
  if negb (status_code response =? 200) then
    ret (error_text "Error" response)
  else
    data <~ lift (response_json response) ;;
    lift (format_search data).

Definition get_page_content (page_id : string) (ctx : option Context) : tool string :=
  emit (LogInfo "get_page_content" page_id) ;;;
  check_api_key ctx ;;;
  let page_url := "https://api.notion.com/v1/pages/" ++ page_id in
  response <~ client_get page_url ;;
  if negb (status_code response =? 200) then
    ret (error_text "Error retrieving page" response)
  else
    page_data <~ lift (response_json response) ;;
    let blocks_url := "https://api.notion.com/v1/blocks/" ++ page_id ++ "/children" in
    response <~ client_get blocks_url ;;
    if negb (status_code response =? 200) then
      ret (error_text "Error retrieving page content" response)
    else
      blocks_data <~ lift (response_json response) ;;
      lift (format_page page_data blocks_data).

Definition get_database_content (database_id : string) (max_pages : Z)
    (ctx : option Context) : tool string :=
  check_api_key ctx ;;;
  let database_url := "https://api.notion.com/v1/databases/" ++ database_id in
  let query_url := "https://api.notion.com/v1/databases/" ++ database_id ++ "/query" in
  response <~ client_get database_url ;;
  if negb (status_code response =? 200) then
    ret (error_text "Error retrieving database" response)
  else
    db_data <~ lift (response_json response) ;;
    let payload := [("page_size", VInt (Z.min max_pages 100))] in
    response <~ client_post query_url payload ;;
    if negb (status_code response =? 200) then
      ret (error_text "Error querying database" response)
    else
      query_data <~ lift (response_json response) ;;
      lift (format_database db_data query_data).

Definition get_block_children (block_id : string) (ctx : option Context) : tool string :=
  check_api_key ctx ;;;
  let url := "https://api.notion.com/v1/blocks/" ++ block_id ++ "/children" in
  response <~ client_get url ;;
  if negb (status_code response =? 200) then
    ret (error_text "Error retrieving block children" response)
  else
    data <~ lift (response_json response) ;;
    lift (format_children data).

(** ** Shapes of blocks, used to state the properties *)

(** A block that gets the placeholder line, with the label the placeholder
    shows: either the block has no [type] key, or its [type] is a string
    under which the block has no payload. *)
Inductive unrenderable (block : dict) : string -> Prop :=
| type_absent :
    lookup "type" block = None -> unrenderable block "None"
| payload_missing (t : string) :
    lookup "type" block = Some (VStr t) -> lookup t block = None ->
    unrenderable block t.

(** A rich-text run: a dict whose [plain_text], when it has one, is a
    string. *)
Definition run_ok (run : value) : bool :=
  match run with
  | VDict d =>
      match lookup "plain_text" d with
      | None | Some (VStr _) => true
      | Some _ => false
      end
  | _ => false
  end.

Definition runs_ok (runs : value) : bool :=
  match runs with
  | VList l => forallb run_ok l
  | _ => false
  end.

Definition is_dict (v : value) : bool :=
  match v with
  | VDict _ => true
  | _ => false
  end.

(** The field is missing, or it is there and passes the check. *)
Definition field_ok (check : value -> bool) (d : dict) (k : string) : bool :=
  match lookup k d with
  | None => true
  | Some v => check v
  end.

(** A payload whose sub-fields may be missing but, where present, have the
    JSON type the renderer reads them at. *)
Definition payload_ok (content : value) : bool :=
  match content with
  | VDict c =>
      field_ok runs_ok c "rich_text" && field_ok runs_ok c "caption"
      && field_ok is_dict c "file" && field_ok is_dict c "external"
      && field_ok is_dict c "icon"
  | _ => false
  end.

(** A block whose [type], when present, is a string and whose payload,
    when present, is [payload_ok]. *)
Definition block_ok (block : dict) : bool :=
  match lookup "type" block with
  | None => true
  | Some (VStr t) => field_ok payload_ok block t
  | Some _ => false
  end.

(** ** Network budget of a computation *)

(** [spends t n]: from any world, running [t] adds at most [n] HTTP
    requests to the log and removes none. *)
Definition spends {A} (t : tool A) (n : nat) : Prop :=
  forall w, exists sent,
    network_calls (log (snd (t w))) = List.app (network_calls (log w)) sent
    /\ (List.length sent <= n)%nat.

(** A world with a credential and a remote side that never answers. *)
Definition offline (key : option string) : world :=
  {| environ := key; NOTION_API_KEY := None; remote := fun _ _ => None; log := [] |}.

(** ** Outcomes of an invocation, used to state the properties *)

(** The error messages a log shows as delivered to the host, in order. *)
Fixpoint delivered (l : list event) : list string :=
  match l with
  | [] => []
  | CtxError msg :: rest => msg :: delivered rest
  | _ :: rest => delivered rest
  end.

(** The invocation of [t] from [w] builds the report of the missing
    credential, raises right after, and has sent nothing: its log is that
    of [w], then events that are not requests, then the unawaited report
    as the last event.  No message has been delivered to the host. *)
Definition aborts_unsent {A} (t : tool A) (w : world) : Prop :=
  fst (t w) = Raise missing_key_error
  /\ exists quiet,
       log (snd (t w)) = List.app (log w) (List.app quiet [Unawaited missing_key_notice])
       /\ network_calls quiet = []
       /\ network_calls (log (snd (t w))) = network_calls (log w)
       /\ delivered quiet = []
       /\ delivered (log (snd (t w))) = delivered (log w).

(** The request a search sends once the credential [key] has been read. *)
Definition search_request (key query filter_type : option string) (page_size : Z)
    : request :=
  {| req_method := POST;
     req_url := search_url;
     req_headers := bearer_headers key;
     req_json := Some (search_payload query filter_type page_size) |}.

(** The search request of this invocation is answered with status 200 and
    a body that decodes to [data]. *)
Definition answers_search (w : world) (query filter_type : option string)
    (page_size : Z) (data : value) : Prop :=
  exists resp,
    remote w (List.length (network_calls (log w)))
      (search_request (environ w) query filter_type page_size) = Some resp
    /\ status_code resp = 200
    /\ json resp = Some data.

(** A world with a credential and a remote side that always answers
    [resp]. *)
Definition online (key : option string) (resp : response) : world :=
  {| environ := key; NOTION_API_KEY := None; remote := fun _ _ => Some resp; log := [] |}.

(** ** Sample data *)

Definition quoted (s : string) : string := String dquote (s ++ String dquote EmptyString).

(** A toggle with one run of text and children. *)
Definition toggle_with_children : dict :=
  [("type", VStr "toggle");
   ("toggle", VDict [("rich_text", VList [VDict [("plain_text", VStr "More")]])]);
   ("has_children", VBool true)].

(** A successful answer to a search that matched nothing. *)
Definition empty_listing : response :=
  {| status_code := 200;
     text := "{" ++ quoted "object" ++ ": " ++ quoted "list" ++ ", "
                 ++ quoted "results" ++ ": []}";
     json := Some (VDict [("object", VStr "list"); ("results", VList [])]) |}.

(** A hit that is neither a page nor a database. *)
Definition user_hit : dict := [("object", VStr "user"); ("id", VStr "u1")].

(** A successful answer to a search whose only hit is [user_hit]. *)
Definition user_listing : response :=
  {| status_code := 200;
     text := "{" ++ quoted "results" ++ ": [{" ++ quoted "object" ++ ": " ++ quoted "user"
                 ++ ", " ++ quoted "id" ++ ": " ++ quoted "u1" ++ "}]}";
     json := Some (VDict [("results", VList [VDict user_hit])]) |}.

(** ** Further vocabulary for the properties of the renderer *)

(** What follows a block's own rendering: the note about children, on a
    line of its own, when [has_children] is truthy. *)
Definition children_suffix (block : dict) (indent : Z) : string :=
  if truthy (dict_get block "has_children" (VBool false))
  then nl ++ str_mul "  " indent ++ children_note
  else EmptyString.

(** The block types rendered as a fixed decoration followed by the text,
    with their decorations. *)
Definition decorations : list (string * string) :=
  [("paragraph", EmptyString);
   ("heading_1", "# ");
   ("heading_2", "## ");
   ("heading_3", "### ");
   ("bulleted_list_item", "• ");
   ("numbered_list_item", "1. ");
   ("toggle", "▶ ");
   ("quote", "> ")].

(** The block types with a branch of their own in the renderer. *)
Definition handled_types : list string :=
  ["paragraph"; "heading_1"; "heading_2"; "heading_3"; "bulleted_list_item";
   "numbered_list_item"; "to_do"; "toggle"; "code"; "image"; "divider"; "callout";
   "quote"; "table"].

Definition is_str (v : value) : bool :=
  match v with
  | VStr _ => true
  | _ => false
  end.

(** What the comprehension reads from one run that is a dict. *)
Definition run_text (run : value) : value :=
  match run with
  | VDict d => dict_get d "plain_text" (VStr EmptyString)
  | _ => VNone
  end.

(** A run carrying the text [s]. *)
Definition run_of (s : string) : value := VDict [("plain_text", VStr s)].

(** The text a run contributes when it is a dict with a string text or
    none. *)
Definition run_string (run : value) : string :=
  match run_text run with
  | VStr s => s
  | _ => EmptyString
  end.

(** An image block with both sources and a caption. *)
Definition logo_image : dict :=
  [("type", VStr "image");
   ("image", VDict [("external", VDict [("url", VStr "http://e")]);
                    ("file", VDict [("url", VStr "http://f")]);
                    ("caption", VList [run_of "Logo"])])].

(** A to-do whose [checked] is null. *)
Definition open_to_do : dict :=
  [("type", VStr "to_do");
   ("to_do", VDict [("checked", VNone); ("rich_text", VList [run_of "Call"])])].

(** ** Requests of the tools, used to state what they send *)

Definition get_request (key : option string) (url : string) : request :=
  {| req_method := GET; req_url := url; req_headers := bearer_headers key;
     req_json := None |}.

Definition post_request (key : option string) (url : string) (payload : dict) : request :=
  {| req_method := POST; req_url := url; req_headers := bearer_headers key;
     req_json := Some payload |}.

Definition page_url (page_id : string) : string :=
  "https://api.notion.com/v1/pages/" ++ page_id.

Definition children_url (block_id : string) : string :=
  "https://api.notion.com/v1/blocks/" ++ block_id ++ "/children".

Definition database_url (database_id : string) : string :=
  "https://api.notion.com/v1/databases/" ++ database_id.

Definition query_url (database_id : string) : string :=
  "https://api.notion.com/v1/databases/" ++ database_id ++ "/query".

(** The requests a run of [t] from [w] added to the log. *)
Definition requests_of {A} (t : tool A) (w : world) : list request :=
  skipn (List.length (network_calls (log w))) (network_calls (log (snd (t w)))).

(** A world with a credential whose remote side answers the first request
    with [first] and every later one with [second]. *)
Definition scripted (key : option string) (first second : option response) : world :=
  {| environ := key; NOTION_API_KEY := None;
     remote := fun n _ => match n with O => first | S _ => second end;
     log := [] |}.

(** An answer with the given status whose body is not JSON. *)
Definition plain_answer (status : Z) (body : string) : response :=
  {| status_code := status; text := body; json := None |}.

(** An answer with status 200 whose body decodes to [data]; the raw text
    is what the decoder printed back. *)
Definition json_answer (data : value) : response :=
  {| status_code := 200; text := repr data; json := Some data |}.

(** The answer lets a two-step tool go on to its second request: status
    200 and a body that decodes. *)
Definition proceeds (answer : option response) : bool :=
  match answer with
  | Some resp =>
      (status_code resp =? 200) && match json resp with Some _ => true | None => false end
  | None => false
  end.

(** The body of the query a database report sends. *)
Definition query_payload (max_pages : Z) : dict :=
  [("page_size", VInt (Z.min max_pages 100))].

(** ** Vocabulary for the properties of a database entry *)

(** The property types with a branch of their own in the extraction. *)
Definition property_types : list string :=
  ["title"; "rich_text"; "number"; "select"; "multi_select"; "date"; "checkbox";
   "url"; "email"; "phone_number"].

(** The property types whose value is iterated without a guard. *)
Definition iterated_types : list string := ["title"; "rich_text"; "multi_select"].

(** An option of a multi-select that carries the name [n]. *)
Definition names (option : value) (n : string) : Prop :=
  exists d, option = VDict d /\ lookup "name" d = Some (VStr n).

(** * Properties *)

(** ** Worked examples from the documentation of the renderer *)

Example repr_nested :
  repr (VDict [("a", VList [VInt (-3); VStr "it's"; VNone; VBool true])])
  = "{'a': [-3, " ++ String dquote ("it's" ++ String dquote ", None, True]}").
Proof. reflexivity. Qed.

Example str_of_Z_zero : str_of_Z 0 = "0".
Proof. reflexivity. Qed.

Example to_do_example :
  format_block
    [("type", VStr "to_do");
     ("to_do", VDict [("checked", VBool true);
                      ("rich_text", VList [VDict [("plain_text", VStr "Buy milk")]])])] 0
  = Ok "✓ Buy milk".
Proof. reflexivity. Qed.

Example code_example :
  format_block
    [("type", VStr "code");
     ("code", VDict [("language", VStr "python");
                     ("rich_text", VList [VDict [("plain_text", VStr "print(1)")]])])] 1
  = Ok ("  ```python" ++ nl ++ "  print(1)" ++ nl ++ "  ```").
Proof. reflexivity. Qed.

Example multi_select_example :
  property_line "Tags"
    (VDict [("type", VStr "multi_select");
            ("multi_select", VList [VDict [("name", VStr "A")]; VDict [("name", VStr "B")]])])
  = Ok "- Tags: A, B".
Proof. reflexivity. Qed.

(** ** The block renderer *)

Lemma rbind_ok {A B} (r : result A) (k : A -> result B) (b : B) :
  rbind r k = Ok b -> exists a, r = Ok a /\ k a = Ok b.
Proof.
  destruct r as [a|e]; simpl; intros H.
  - exists a. split; [reflexivity | exact H].
  - discriminate H.
Qed.

(** Runs of the expected shape always concatenate. *)
Lemma plain_text_total (runs : value) :
  runs_ok runs = true -> exists text, plain_text runs = Ok text.
Proof.
  destruct runs as [ | | | | |l|]; simpl; try discriminate.
  intros H. unfold plain_text. simpl.
  assert (G : exists ss, rmap (fun text_item => get text_item "plain_text" (VStr EmptyString)) l
                         = Ok (map VStr ss)).
  { induction l as [|run l IH]; simpl in *.
    - exists []. reflexivity.
    - apply andb_prop in H. destruct H as [Hrun Hl].
      destruct (IH Hl) as [ss Hss]. rewrite Hss.
      destruct run as [ | | | | | |d]; simpl in Hrun; try discriminate.
      simpl. unfold dict_get.
      destruct (lookup "plain_text" d) as [[ | | | |s| |]|]; try discriminate.
      + exists (s :: ss). reflexivity.
      + exists (EmptyString :: ss). reflexivity. }
  destruct G as [ss Hss]. rewrite Hss. simpl. unfold join.
  assert (J : rmap as_str (map VStr ss) = Ok ss).
  { clear. induction ss as [|x ss IH]; simpl; [reflexivity | now rewrite IH]. }
  rewrite J. simpl. eauto.
Qed.

Lemma text_of_total (c : dict) (field : string) :
  field_ok runs_ok c field = true -> exists text, text_of (VDict c) field = Ok text.
Proof.
  unfold field_ok, text_of. simpl. unfold dict_get.
  destruct (lookup field c) as [v|]; intros H.
  - apply plain_text_total. exact H.
  - exists EmptyString. reflexivity.
Qed.

(** Every branch of the renderer succeeds on a payload of the expected
    shape. *)
Lemma block_line_total (block_type content : value) (indent_str : string) :
  payload_ok content = true ->
  exists line, block_line block_type content indent_str = Ok line.
Proof.
  destruct content as [ | | | | | |c]; simpl; try discriminate.
  intros H.
  repeat (apply andb_prop in H; let H' := fresh "H" in destruct H as [H H']).
  destruct (text_of_total c "rich_text" H) as [text Htext].
  destruct (text_of_total c "caption" H3) as [caption Hcaption].
  unfold block_line.
  repeat match goal with
         | |- context [if eq_str block_type ?name then _ else _] =>
             destruct (eq_str block_type name)
         end;
    try rewrite Htext; try rewrite Hcaption; simpl; eauto.
  - (* image *)
    unfold has_key, field_ok in *.
    destruct (lookup "file" c) as [file|]; simpl.
    + destruct file; simpl in *; try discriminate; eauto.
    + destruct (lookup "external" c) as [external|]; simpl; eauto.
      destruct external; simpl in *; try discriminate; eauto.
  - (* callout *)
    unfold field_ok, dict_get in *.
    destruct (lookup "icon" c) as [icon|]; simpl; eauto.
    destruct icon; simpl in *; try discriminate; eauto.
Qed.

(** On blocks of the expected shape the renderer returns a text: missing
    sub-fields never make it raise. *)
Lemma format_block_total (block : dict) (indent : Z) :
  block_ok block = true -> exists out, format_block block indent = Ok out.
Proof.
  unfold block_ok, format_block, dict_get.
  destruct (lookup "type" block) as [ty|]; simpl; eauto.
  destruct ty as [ | | | |t| |]; try discriminate.
  intros H. simpl. destruct (is_empty t); simpl; eauto.
  unfold has_key, field_ok in *.
  destruct (lookup t block) as [content|]; simpl; eauto.
  destruct (block_line_total (VStr t) content (str_mul "  " indent) H) as [line Hline].
  rewrite Hline. simpl. eauto.
Qed.

(** C1, at the input where it fails: a callout whose [icon] is null, the
    form Notion gives a callout without icon.  [content.get("icon", {})]
    answers [None], and asking [None] for its [emoji] raises
    [AttributeError], so the renderer raises instead of showing an empty
    emoji. *)
Theorem format_block_callout_null_icon :
  format_block
    [("type", VStr "callout");
     ("callout", VDict [("rich_text", VList [VDict [("plain_text", VStr "Note")]]);
                        ("icon", VNone)])] 0
  = Raise AttributeError.
Proof. reflexivity. Qed.

(** The same callout with the [icon] key left out renders with an empty
    emoji. *)
Example format_block_callout_no_icon :
  format_block
    [("type", VStr "callout");
     ("callout", VDict [("rich_text", VList [VDict [("plain_text", VStr "Note")]])])] 0
  = Ok " | Note".
Proof. reflexivity. Qed.

(** Counterexample to C2 as stated: a block without [type] is labelled
    [None], not left with an empty label. *)
Lemma unsupported_label_of_absent_type :
  lookup "type" [("id", VStr "b1")] = None
  /\ format_block [("id", VStr "b1")] 0 = Ok "[Unsupported block type: None]"
  /\ format_block [("id", VStr "b1")] 0 <> Ok "[Unsupported block type: ]".
Proof.
  repeat split; try reflexivity. discriminate.
Qed.

(** C2, amended: a block without [type], or whose [type] is a string with
    no payload under it, renders as exactly the placeholder line at the
    given indent; the label is the type string when there is one and the
    text [None] when the type is absent. *)
Theorem format_block_unsupported (block : dict) (indent : Z) (label : string) :
  unrenderable block label ->
  format_block block indent
  = Ok (str_mul "  " indent ++ "[Unsupported block type: " ++ label ++ "]").
Proof.
  intros [Habsent | t Htype Hpayload]; unfold format_block, dict_get.
  - rewrite Habsent. reflexivity.
  - rewrite Htype. simpl. destruct t as [|c t]; simpl; [reflexivity|].
    unfold has_key. rewrite Hpayload. reflexivity.
Qed.

Lemma format_block_unsupported_witness :
  unrenderable [("type", VStr "paragraph"); ("id", VStr "b2")] "paragraph"
  /\ format_block [("type", VStr "paragraph"); ("id", VStr "b2")] 2
     = Ok "    [Unsupported block type: paragraph]".
Proof.
  assert (H : unrenderable [("type", VStr "paragraph"); ("id", VStr "b2")] "paragraph")
    by (apply payload_missing; reflexivity).
  split; [exact H|].
  exact (format_block_unsupported _ 2 "paragraph" H).
Defined.

(** ** Network budget of the tools *)

Lemma network_calls_app (l1 l2 : list event) :
  network_calls (List.app l1 l2) = List.app (network_calls l1) (network_calls l2).
Proof.
  induction l1 as [|e l1 IH]; simpl; [reflexivity|].
  destruct e; simpl; rewrite IH; reflexivity.
Qed.

Lemma spends_ret {A} (a : A) : spends (ret a) 0.
Proof. intros w. exists []. simpl. rewrite app_nil_r. auto. Qed.

Lemma spends_raise {A} (e : exn) : spends (@raise A e) 0.
Proof. intros w. exists []. simpl. rewrite app_nil_r. auto. Qed.

Lemma spends_lift {A} (r : result A) : spends (lift r) 0.
Proof. intros w. exists []. simpl. rewrite app_nil_r. auto. Qed.

Lemma spends_emit (e : event) : spends (emit e) (List.length (network_calls [e])).
Proof.
  intros w. exists (network_calls [e]). simpl log.
  rewrite network_calls_app. auto.
Qed.

Lemma spends_send (r : request) : spends (send r) 1.
Proof.
  intros w. exists [r]. unfold send.
  destruct (remote w _ r); simpl log; rewrite network_calls_app; auto.
Qed.

Lemma spends_bind {A B} (t : tool A) (k : A -> tool B) (n m : nat) :
  spends t n -> (forall a, spends (k a) m) -> spends (bind t k) (n + m).
Proof.
  intros Ht Hk w. unfold bind.
  destruct (Ht w) as [s1 [E1 L1]].
  destruct (t w) as [[a|e] w1]; simpl in E1.
  - destruct (Hk a w1) as [s2 [E2 L2]].
    exists (List.app s1 s2). rewrite E2, E1, <- app_assoc, length_app.
    split; [reflexivity | lia].
  - exists s1. simpl. split; [exact E1 | lia].
Qed.

Lemma spends_le {A} (t : tool A) (n m : nat) :
  spends t n -> (n <= m)%nat -> spends t m.
Proof.
  intros Ht Hle w. destruct (Ht w) as [s [E L]]. exists s. split; [exact E | lia].
Qed.

Lemma spends_check_api_key (ctx : option Context) : spends (check_api_key ctx) 0.
Proof.
  intros w. unfold check_api_key.
  destruct (negb (truthy_opt (NOTION_API_KEY (with_key w (environ w))))).
  - destruct ctx as [c|]; simpl.
    + exists []. rewrite network_calls_app. auto.
    + exists []. rewrite app_nil_r. auto.
  - exists []. simpl. rewrite app_nil_r. auto.
Qed.

Lemma spends_client_get (url : string) : spends (client_get url) 1.
Proof.
  intros w. unfold client_get, bind, get_headers. apply spends_send.
Qed.

Lemma spends_client_post (url : string) (payload : dict) : spends (client_post url payload) 1.
Proof.
  intros w. unfold client_post, bind, get_headers. apply spends_send.
Qed.

Lemma spends_get_block_children (block_id : string) (ctx : option Context) :
  spends (get_block_children block_id ctx) 1.
Proof.
  unfold get_block_children.
  apply (spends_bind _ _ 0 1); [apply spends_check_api_key | intros _].
  apply (spends_bind _ _ 1 0); [apply spends_client_get | intros response].
  destruct (negb (status_code response =? 200)); [apply spends_ret|].
  apply (spends_bind _ _ 0 0); [apply spends_lift | intros data; apply spends_lift].
Qed.

Lemma spends_get_page_content (page_id : string) (ctx : option Context) :
  spends (get_page_content page_id ctx) 2.
Proof.
  unfold get_page_content.
  apply (spends_bind _ _ 0 2); [apply (spends_emit (LogInfo _ _)) | intros _].
  apply (spends_bind _ _ 0 2); [apply spends_check_api_key | intros _].
  apply (spends_bind _ _ 1 1); [apply spends_client_get | intros response].
  destruct (negb (status_code response =? 200));
    [apply (spends_le _ 0); [apply spends_ret | lia] |].
  apply (spends_bind _ _ 0 1); [apply spends_lift | intros page_data].
  apply (spends_bind _ _ 1 0); [apply spends_client_get | intros response'].
  destruct (negb (status_code response' =? 200)); [apply spends_ret|].
  apply (spends_bind _ _ 0 0); [apply spends_lift | intros blocks_data; apply spends_lift].
Qed.

(** ** Child blocks *)

(** Counterexample to C3 as stated: a block with children but without
    [type], or without the payload its [type] names, gets the placeholder
    line only; the note about children is nowhere in the output. *)
Lemma children_note_absent_from_placeholder :
  truthy (dict_get [("id", VStr "b1"); ("has_children", VBool true)]
            "has_children" (VBool false)) = true
  /\ format_block [("id", VStr "b1"); ("has_children", VBool true)] 0
     = Ok "[Unsupported block type: None]"
  /\ is_substring children_note "[Unsupported block type: None]" = false
  /\ format_block [("type", VStr "toggle"); ("has_children", VBool true)] 0
     = Ok "[Unsupported block type: toggle]"
  /\ is_substring children_note "[Unsupported block type: toggle]" = false.
Proof. repeat split. Qed.

(** C3, amended: for a block with [has_children] true whose [type] is
    present and names a payload of the block, whatever the renderer returns
    ends with an extra line, at the block's indent, saying that child
    blocks exist and are not displayed; on a block of the expected shape it
    does return.  Blocks that get the placeholder are left out.  Rendering
    sends nothing: [get_block_children] sends at most one request and
    [get_page_content] at most two, whatever blocks they are given. *)
Theorem children_note_appended (block : dict) (indent : Z) :
  truthy (dict_get block "has_children" (VBool false)) = true ->
  truthy (dict_get block "type" VNone) = true ->
  key_in (dict_get block "type" VNone) block = Ok true ->
  (forall out, format_block block indent = Ok out ->
     exists line, out = line ++ nl ++ str_mul "  " indent ++ children_note)
  /\ (block_ok block = true ->
      exists line, format_block block indent
                   = Ok (line ++ nl ++ str_mul "  " indent ++ children_note))
  /\ (forall block_id ctx, spends (get_block_children block_id ctx) 1)
  /\ (forall page_id ctx, spends (get_page_content page_id ctx) 2).
Proof.
  intros Hchildren Htype Hkey.
  assert (Shape : forall out, format_block block indent = Ok out ->
            exists line, out = line ++ nl ++ str_mul "  " indent ++ children_note).
  { intros out. unfold format_block. rewrite Hchildren, Htype, Hkey. simpl.
    intros H. apply rbind_ok in H. destruct H as [content [_ H]].
    apply rbind_ok in H. destruct H as [line [_ H]].
    injection H as <-. exists line. reflexivity. }
  split; [exact Shape|].
  split.
  - intros Hok. destruct (format_block_total block indent Hok) as [out Hout].
    destruct (Shape out Hout) as [line ->]. exists line. exact Hout.
  - split; intros; [apply spends_get_block_children | apply spends_get_page_content].
Qed.

Lemma children_note_appended_witness :
  truthy (dict_get toggle_with_children "has_children" (VBool false)) = true
  /\ truthy (dict_get toggle_with_children "type" VNone) = true
  /\ key_in (dict_get toggle_with_children "type" VNone) toggle_with_children = Ok true
  /\ exists line,
       format_block toggle_with_children 1
       = Ok (line ++ nl ++ str_mul "  " 1 ++ children_note).
Proof.
  assert (H1 : truthy (dict_get toggle_with_children "has_children" (VBool false)) = true)
    by reflexivity.
  assert (H2 : truthy (dict_get toggle_with_children "type" VNone) = true)
    by reflexivity.
  assert (H3 : key_in (dict_get toggle_with_children "type" VNone) toggle_with_children
               = Ok true) by reflexivity.
  split; [exact H1|]. split; [exact H2|]. split; [exact H3|].
  apply (children_note_appended toggle_with_children 1 H1 H2 H3). reflexivity.
Defined.

(** ** Properties of a database entry *)

Lemma tagged_missing (t : string) (d : dict) (name : string) :
  lookup t d = None -> tagged (VStr t) (VDict d) name = Ok false.
Proof.
  intros H. unfold tagged. simpl.
  destruct (String.eqb t name) eqn:E; [|reflexivity].
  apply String.eqb_eq in E. subst name. unfold has_key. rewrite H. reflexivity.
Qed.

(** A number property that holds a number is shown as that number. *)
Lemma property_number_literal (prop_name : string) (d : dict) (z : Z) :
  lookup "type" d = Some (VStr "number") ->
  lookup "number" d = Some (VInt z) ->
  property_line prop_name (VDict d) = Ok ("- " ++ prop_name ++ ": " ++ str_of_Z z).
Proof.
  intros Htype Hnumber. unfold property_line, property_value. simpl get.
  unfold dict_get. rewrite Htype. simpl rbind.
  unfold has_key. rewrite Hnumber. reflexivity.
Qed.

(** A property whose value key is missing is shown as N/A, whatever its
    type. *)
Lemma property_missing_value (prop_name t : string) (d : dict) :
  lookup "type" d = Some (VStr t) ->
  lookup t d = None ->
  property_line prop_name (VDict d) = Ok ("- " ++ prop_name ++ ": N/A").
Proof.
  intros Htype Hvalue. unfold property_line, property_value. simpl get.
  unfold dict_get. rewrite Htype. cbn [rbind].
  rewrite !(tagged_missing t d) by exact Hvalue. reflexivity.
Qed.

(** The branches that guard against null: [select], [date], [url],
    [email] and [phone_number] holding null are shown as N/A. *)
Example property_null_guarded :
  map (fun t => property_line "P" (VDict [("type", VStr t); (t, VNone)]))
    ["select"; "date"; "url"; "email"; "phone_number"]
  = [Ok "- P: N/A"; Ok "- P: N/A"; Ok "- P: N/A"; Ok "- P: N/A"; Ok "- P: N/A"].
Proof. reflexivity. Qed.

(** C4, at the input where it fails: a number property holding null, the
    form Notion gives an empty number cell.  The [number] branch has no
    guard against null, unlike its siblings, and the line shows the text
    [None] where N/A is promised. *)
Theorem property_number_null :
  property_line "Price" (VDict [("type", VStr "number"); ("number", VNone)])
  = Ok "- Price: None".
Proof. reflexivity. Qed.

(** ** The credential check *)

Lemma check_api_key_missing (c : Context) (w : world) :
  truthy_opt (environ w) = false ->
  check_api_key (Some c) w
  = (Raise missing_key_error,
     with_event (with_key w (environ w)) (Unawaited missing_key_notice)).
Proof.
  intros H. unfold check_api_key. simpl. rewrite H. reflexivity.
Qed.

Lemma check_api_key_present (ctx : option Context) (w : world) :
  truthy_opt (environ w) = true ->
  check_api_key ctx w = (Ok tt, with_key w (environ w)).
Proof.
  intros H. unfold check_api_key. simpl. rewrite H. reflexivity.
Qed.

(** Called without a context (the parameter's default), the check fails
    on [ctx.error] itself: nothing is reported, and still nothing is
    sent. *)
Remark check_api_key_without_context (w : world) :
  truthy_opt (environ w) = false ->
  check_api_key None w = (Raise AttributeError, with_key w (environ w)).
Proof.
  intros H. unfold check_api_key. simpl. rewrite H. reflexivity.
Qed.

Lemma delivered_app (l1 l2 : list event) :
  delivered (List.app l1 l2) = List.app (delivered l1) (delivered l2).
Proof.
  induction l1 as [|e l1 IH]; simpl; [reflexivity|].
  destruct e; simpl; rewrite IH; reflexivity.
Qed.

(** A tool that starts with the credential check stops there when the
    credential is missing. *)
Lemma aborts_after_check {A} (c : Context) (k : tool A) (w : world) :
  truthy_opt (environ w) = false ->
  aborts_unsent (bind (check_api_key (Some c)) (fun _ => k)) w.
Proof.
  intros H. unfold aborts_unsent, bind. rewrite (check_api_key_missing c w H).
  simpl. split; [reflexivity|]. exists [].
  rewrite network_calls_app, delivered_app, !app_nil_r. auto.
Qed.

(** With no credential in the environment (unset or empty), an invocation
    of any of the four tools, handed the request context as the host does,
    raises the error about the missing key and has sent no request.  The
    report built by [ctx.error] is never awaited, so no message is
    delivered to the host. *)
Lemma missing_credential_stops_unreported (w : world) (c : Context)
    (query filter_type : option string) (page_size max_pages : Z)
    (page_id database_id block_id : string) :
  truthy_opt (environ w) = false ->
  aborts_unsent (search_notion_pages query filter_type page_size (Some c)) w
  /\ aborts_unsent (get_page_content page_id (Some c)) w
  /\ aborts_unsent (get_database_content database_id max_pages (Some c)) w
  /\ aborts_unsent (get_block_children block_id (Some c)) w.
Proof.
  intros H.
  split; [apply (aborts_after_check c _ w H)|].
  split; [|split; apply (aborts_after_check c _ w H)].
  unfold aborts_unsent, get_page_content. unfold bind at 1 3. unfold emit.
  unfold bind. rewrite (check_api_key_missing c (with_event w _) H). simpl.
  split; [reflexivity|].
  exists [LogInfo "get_page_content" page_id].
  rewrite <- app_assoc, !network_calls_app, !delivered_app. simpl.
  rewrite !app_nil_r. auto.
Qed.

(** C5, at an input where it fails: [get_page_content] invoked with the
    request context while no credential is in the environment.  The
    invocation raises the error about the missing key and sends no
    request, as claimed, but the error is not signalled to the host:
    [check_api_key] calls [ctx.error] without awaiting it, so the log
    holds the dropped coroutine and no delivered message. *)
Theorem missing_credential_error_not_delivered :
  fst (get_page_content "p1" (Some HostContext) (offline None))
  = Raise missing_key_error
  /\ log (snd (get_page_content "p1" (Some HostContext) (offline None)))
     = [LogInfo "get_page_content" "p1"; Unawaited missing_key_notice]
  /\ delivered (log (snd (get_page_content "p1" (Some HostContext) (offline None)))) = []
  /\ network_calls (log (snd (get_page_content "p1" (Some HostContext) (offline None))))
     = [].
Proof. repeat split. Qed.

(** ** Search *)

(** What a search does once the credential is there: the payload is
    printed, one request is sent, and the answer decides the result. *)
Lemma search_run (query filter_type : option string) (page_size : Z)
    (ctx : option Context) (w : world) :
  truthy_opt (environ w) = true ->
  let sent := search_request (environ w) query filter_type page_size in
  let w1 := with_event (with_key w (environ w))
              (Printed ("payload " ++ repr (VDict (search_payload query filter_type page_size)))) in
  let w2 := with_event w1 (Sent sent) in
  search_notion_pages query filter_type page_size ctx w
  = match remote w (List.length (network_calls (log w))) sent with
    | None => (Raise TransportError, w2)
    | Some resp =>
        match json resp with
        | None => (Raise JSONDecodeError, w2)
        | Some data =>
            (if negb (status_code resp =? 200) then Ok (error_text "Error" resp)
             else format_search data,
             with_event w2 (Printed (str data)))
        end
    end.
Proof.
  intros H sent w1 w2. unfold search_notion_pages, bind.
  rewrite (check_api_key_present ctx w H).
  unfold emit at 1. unfold client_post, bind, get_headers, send.
  cbn [NOTION_API_KEY with_event with_key remote log].
  fold (search_request (environ w) query filter_type page_size). fold sent.
  rewrite network_calls_app. cbn [network_calls]. rewrite app_nil_r.
  destruct (remote w _ sent) as [resp|]; [|reflexivity].
  unfold lift, response_json.
  destruct (json resp) as [data|]; [|reflexivity].
  unfold emit. destruct (negb (status_code resp =? 200)); reflexivity.
Qed.

Lemma search_sends (query filter_type : option string) (page_size : Z)
    (ctx : option Context) (w : world) :
  truthy_opt (environ w) = true ->
  network_calls (log (snd (search_notion_pages query filter_type page_size ctx w)))
  = List.app (network_calls (log w))
      [search_request (environ w) query filter_type page_size].
Proof.
  intros H. rewrite (search_run query filter_type page_size ctx w H).
  destruct (remote w _ _) as [resp|]; [destruct (json resp)|];
    cbn [snd log with_event with_key];
    rewrite !network_calls_app; cbn [network_calls];
    rewrite ?app_nil_r; reflexivity.
Qed.

Lemma search_success (query filter_type : option string) (page_size : Z)
    (ctx : option Context) (w : world) (data : value) :
  truthy_opt (environ w) = true ->
  answers_search w query filter_type page_size data ->
  fst (search_notion_pages query filter_type page_size ctx w) = format_search data.
Proof.
  intros H [resp [Hresp [Hstatus Hjson]]].
  rewrite (search_run query filter_type page_size ctx w H).
  rewrite Hresp, Hjson, Hstatus. reflexivity.
Qed.

Lemma payload_page_size (query filter_type : option string) (page_size : Z) :
  lookup "page_size" (search_payload query filter_type page_size)
  = if page_size =? 0 then None else Some (VInt (Z.min 100 page_size)).
Proof.
  unfold search_payload.
  destruct query as [q|]; [destruct (truthy_opt (Some q))|];
    simpl truthy; destruct (page_size =? 0);
    (destruct filter_type as [f|];
     [destruct (truthy_opt (Some f) && (String.eqb f "page" || String.eqb f "database"))|]);
    reflexivity.
Qed.

Lemma payload_ignores_filter (query filter_type : option string) (page_size : Z) :
  filter_type <> Some "page" -> filter_type <> Some "database" ->
  search_payload query filter_type page_size = search_payload query None page_size.
Proof.
  intros Hpage Hdatabase. destruct filter_type as [f|]; [|reflexivity].
  unfold search_payload.
  destruct (String.eqb f "page") eqn:E1.
  { apply String.eqb_eq in E1. subst f. contradiction Hpage. reflexivity. }
  destruct (String.eqb f "database") eqn:E2.
  { apply String.eqb_eq in E2. subst f. contradiction Hdatabase. reflexivity. }
  rewrite andb_false_r. reflexivity.
Qed.

Lemma payload_without_filter (query : option string) (page_size : Z) :
  lookup "filter" (search_payload query None page_size) = None.
Proof.
  unfold search_payload.
  destruct query as [q|]; [destruct (truthy_opt (Some q))|];
    destruct (truthy (VInt page_size)); reflexivity.
Qed.

(** Counterexample to C6 as stated: a search for 0 results sends a payload
    that carries no [page_size] at all, so not [min(100, 0)]. *)
Lemma search_page_size_zero_not_carried :
  lookup "page_size" (search_payload None None 0) <> Some (VInt (Z.min 100 0))
  /\ network_calls
       (log (snd (search_notion_pages None None 0 (Some HostContext)
                    (offline (Some "secret")))))
     = [{| req_method := POST;
           req_url := search_url;
           req_headers := bearer_headers (Some "secret");
           req_json := Some [("sort", VDict [("direction", VStr "descending");
                                            ("timestamp", VStr "last_edited_time")])] |}].
Proof.
  split; [discriminate | reflexivity].
Qed.

(** C6, amended: for every requested [page_size] other than 0, the payload
    of the request a search sends carries [min(100, page_size)], which is at
    most 100 (500 gives 100). *)
Theorem search_page_size_clamped (query filter_type : option string) (page_size : Z)
    (ctx : option Context) (w : world) :
  page_size <> 0 ->
  truthy_opt (environ w) = true ->
  exists payload,
    network_calls (log (snd (search_notion_pages query filter_type page_size ctx w)))
    = List.app (network_calls (log w))
        [{| req_method := POST; req_url := search_url;
            req_headers := bearer_headers (environ w); req_json := Some payload |}]
    /\ lookup "page_size" payload = Some (VInt (Z.min 100 page_size))
    /\ Z.min 100 page_size <= 100.
Proof.
  intros Hnonzero H. exists (search_payload query filter_type page_size).
  split; [apply (search_sends query filter_type page_size ctx w H)|].
  split; [|lia].
  rewrite payload_page_size. apply Z.eqb_neq in Hnonzero. rewrite Hnonzero. reflexivity.
Qed.

Lemma search_page_size_clamped_witness :
  500 <> 0
  /\ truthy_opt (environ (offline (Some "secret"))) = true
  /\ exists payload,
       network_calls
         (log (snd (search_notion_pages (Some "notes") None 500 (Some HostContext)
                      (offline (Some "secret")))))
       = List.app (network_calls (log (offline (Some "secret"))))
           [{| req_method := POST; req_url := search_url;
               req_headers := bearer_headers (environ (offline (Some "secret")));
               req_json := Some payload |}]
       /\ lookup "page_size" payload = Some (VInt (Z.min 100 500))
       /\ Z.min 100 500 <= 100.
Proof.
  assert (H : 500 <> 0) by lia.
  split; [exact H|]. split; [reflexivity|].
  exact (search_page_size_clamped (Some "notes") None 500 (Some HostContext)
           (offline (Some "secret")) H eq_refl).
Defined.

(** C9: a search with [page_size] 0 sends a payload that has no
    [page_size] key. *)
Theorem search_page_size_zero_omitted (query filter_type : option string)
    (ctx : option Context) (w : world) :
  truthy_opt (environ w) = true ->
  exists payload,
    network_calls (log (snd (search_notion_pages query filter_type 0 ctx w)))
    = List.app (network_calls (log w))
        [{| req_method := POST; req_url := search_url;
            req_headers := bearer_headers (environ w); req_json := Some payload |}]
    /\ lookup "page_size" payload = None.
Proof.
  intros H. exists (search_payload query filter_type 0).
  split; [apply (search_sends query filter_type 0 ctx w H)|].
  rewrite payload_page_size. reflexivity.
Qed.

Lemma search_page_size_zero_omitted_witness :
  truthy_opt (environ (offline (Some "secret"))) = true
  /\ exists payload,
       network_calls
         (log (snd (search_notion_pages (Some "notes") (Some "page") 0 (Some HostContext)
                      (offline (Some "secret")))))
       = List.app (network_calls (log (offline (Some "secret"))))
           [{| req_method := POST; req_url := search_url;
               req_headers := bearer_headers (environ (offline (Some "secret")));
               req_json := Some payload |}]
       /\ lookup "page_size" payload = None.
Proof.
  split; [reflexivity|].
  exact (search_page_size_zero_omitted (Some "notes") (Some "page") (Some HostContext)
           (offline (Some "secret")) eq_refl).
Defined.

(** C8: when [filter_type] is neither the string [page] nor the string
    [database] (None and any other string included), the payload of the
    request a search sends has no [filter] key, and the whole invocation,
    result and log, is that of a search without [filter_type]: nothing is
    raised on its account. *)
Theorem search_filter_ignored (query filter_type : option string) (page_size : Z)
    (ctx : option Context) (w : world) :
  filter_type <> Some "page" ->
  filter_type <> Some "database" ->
  truthy_opt (environ w) = true ->
  (exists payload,
     network_calls (log (snd (search_notion_pages query filter_type page_size ctx w)))
     = List.app (network_calls (log w))
         [{| req_method := POST; req_url := search_url;
             req_headers := bearer_headers (environ w); req_json := Some payload |}]
     /\ lookup "filter" payload = None)
  /\ search_notion_pages query filter_type page_size ctx w
     = search_notion_pages query None page_size ctx w.
Proof.
  intros Hpage Hdatabase H.
  pose proof (payload_ignores_filter query filter_type page_size Hpage Hdatabase) as E.
  split.
  - exists (search_payload query filter_type page_size).
    split; [apply (search_sends query filter_type page_size ctx w H)|].
    rewrite E. apply payload_without_filter.
  - unfold search_notion_pages. rewrite E. reflexivity.
Qed.

Lemma search_filter_ignored_witness :
  Some "pages" <> Some "page"
  /\ Some "pages" <> Some "database"
  /\ truthy_opt (environ (offline (Some "secret"))) = true
  /\ search_notion_pages None (Some "pages") 10 (Some HostContext) (offline (Some "secret"))
     = search_notion_pages None None 10 (Some HostContext) (offline (Some "secret")).
Proof.
  assert (H1 : Some "pages" <> Some "page") by discriminate.
  assert (H2 : Some "pages" <> Some "database") by discriminate.
  split; [exact H1|]. split; [exact H2|]. split; [reflexivity|].
  apply (search_filter_ignored None (Some "pages") 10 (Some HostContext)
           (offline (Some "secret")) H1 H2 eq_refl).
Defined.

(** C7: when the credential is there, the search request is answered with
    status 200 and the body's result list is empty, the tool returns
    exactly the text [No results found]. *)
Theorem search_no_results (query filter_type : option string) (page_size : Z)
    (ctx : option Context) (w : world) (body : dict) :
  truthy_opt (environ w) = true ->
  answers_search w query filter_type page_size (VDict body) ->
  lookup "results" body = Some (VList []) ->
  fst (search_notion_pages query filter_type page_size ctx w) = Ok "No results found".
Proof.
  intros H Hanswer Hresults.
  rewrite (search_success query filter_type page_size ctx w (VDict body) H Hanswer).
  unfold format_search. simpl get. unfold dict_get. rewrite Hresults. reflexivity.
Qed.

Lemma search_no_results_witness :
  truthy_opt (environ (online (Some "secret") empty_listing)) = true
  /\ fst (search_notion_pages (Some "nothing") None 10 (Some HostContext)
            (online (Some "secret") empty_listing))
     = Ok "No results found".
Proof.
  split; [reflexivity|].
  apply (search_no_results (Some "nothing") None 10 (Some HostContext)
           (online (Some "secret") empty_listing)
           [("object", VStr "list"); ("results", VList [])]).
  - reflexivity.
  - exists empty_listing. split; [reflexivity|]. split; reflexivity.
  - reflexivity.
Defined.

Lemma rmap_app {A B} (f : A -> result B) (l1 l2 : list A) (r1 r2 : list B) :
  rmap f l1 = Ok r1 -> rmap f l2 = Ok r2 ->
  rmap f (List.app l1 l2) = Ok (List.app r1 r2).
Proof.
  revert r1. induction l1 as [|x l1 IH]; simpl; intros r1 H1 H2.
  - injection H1 as <-. exact H2.
  - destruct (f x) as [y|e]; simpl in *; [|discriminate].
    destruct (rmap f l1) as [ys|e]; simpl in *; [|discriminate].
    injection H1 as <-. rewrite (IH ys eq_refl H2). reflexivity.
Qed.

(** C10: a hit whose [object] is neither [page] nor [database] (the
    default [unknown] when the field is missing) is rendered with the title
    Untitled, its object type, ID, URL and last-edited time, and takes its
    place in the listing the tool returns, between the hits before and
    after it. *)
Theorem search_lists_other_kinds (query filter_type : option string) (page_size : Z)
    (ctx : option Context) (w : world) (body hit : dict)
    (before after : list value) (pre post : list string) (entry : string) :
  eq_str (dict_get hit "object" (VStr "unknown")) "page" = false ->
  eq_str (dict_get hit "object" (VStr "unknown")) "database" = false ->
  entry = "- Untitled (" ++ str (dict_get hit "object" (VStr "unknown")) ++ ")" ++ nl
          ++ "  ID: " ++ str (dict_get hit "id" (VStr "Unknown ID")) ++ nl
          ++ "  URL: " ++ str (dict_get hit "url" (VStr "No URL")) ++ nl
          ++ "  Last Edited: "
          ++ str (dict_get hit "last_edited_time" (VStr "Unknown")) ->
  truthy_opt (environ w) = true ->
  answers_search w query filter_type page_size (VDict body) ->
  lookup "results" body = Some (VList (List.app before (VDict hit :: after))) ->
  rmap format_item before = Ok pre ->
  rmap format_item after = Ok post ->
  format_item (VDict hit) = Ok entry
  /\ fst (search_notion_pages query filter_type page_size ctx w)
     = Ok (join_strings (nl ++ nl) (List.app pre (entry :: post))).
Proof.
  intros Hpage Hdatabase -> H Hanswer Hresults Hpre Hpost.
  match goal with
  | |- format_item _ = Ok ?e /\ _ => set (entry := e)
  end.
  assert (Hhit : format_item (VDict hit) = Ok entry).
  { unfold format_item, item_title. simpl get. cbn [rbind].
    rewrite Hpage, Hdatabase. reflexivity. }
  split; [exact Hhit|].
  rewrite (search_success query filter_type page_size ctx w (VDict body) H Hanswer).
  unfold format_search. simpl get. unfold dict_get at 1. rewrite Hresults.
  assert (T : truthy (VList (List.app before (VDict hit :: after))) = true)
    by (destruct before; reflexivity).
  cbn [rbind]. rewrite T. cbn [negb iter rbind].
  assert (Hlist : rmap format_item (List.app before (VDict hit :: after))
                  = Ok (List.app pre (entry :: post))).
  { apply rmap_app; [exact Hpre|]. simpl. rewrite Hhit, Hpost. reflexivity. }
  rewrite Hlist. reflexivity.
Qed.

Lemma search_lists_other_kinds_witness :
  fst (search_notion_pages None None 10 (Some HostContext)
         (online (Some "secret") user_listing))
  = Ok ("- Untitled (user)" ++ nl ++ "  ID: u1" ++ nl ++ "  URL: No URL" ++ nl
        ++ "  Last Edited: Unknown").
Proof.
  apply (search_lists_other_kinds None None 10 (Some HostContext)
           (online (Some "secret") user_listing)
           [("results", VList [VDict user_hit])] user_hit [] [] [] []
           ("- Untitled (user)" ++ nl ++ "  ID: u1" ++ nl ++ "  URL: No URL" ++ nl
            ++ "  Last Edited: Unknown")).
  - reflexivity.
  - reflexivity.
  - reflexivity.
  - reflexivity.
  - exists user_listing. split; [reflexivity|]. split; reflexivity.
  - reflexivity.
  - reflexivity.
  - reflexivity.
Defined.

(** ** More on the block renderer *)

Lemma string_app_nil_r (s : string) : s ++ EmptyString = s.
Proof.
  induction s as [|c s IH]; simpl; [reflexivity | now rewrite IH].
Qed.

Lemma string_app_assoc (a b c : string) : (a ++ b) ++ c = a ++ (b ++ c).
Proof.
  induction a as [|x a IH]; simpl; [reflexivity | now rewrite IH].
Qed.

(** A block whose type names a payload is rendered by the branch of its
    type, followed by the note about children. *)
Lemma format_block_supported (block : dict) (indent : Z) (t : string) (content : value) :
  lookup "type" block = Some (VStr t) ->
  is_empty t = false ->
  lookup t block = Some content ->
  format_block block indent
  = (line <- block_line (VStr t) content (str_mul "  " indent) ;;
     Ok (line ++ children_suffix block indent)).
Proof.
  intros Htype Hne Hpayload. unfold format_block, children_suffix, dict_get.
  rewrite Htype. simpl. rewrite Hne. simpl. unfold has_key. rewrite Hpayload. simpl.
  destruct (block_line (VStr t) content (str_mul "  " indent)) as [line|e]; simpl;
    [|reflexivity].
  destruct (truthy match lookup "has_children" block with
                   | Some v => v
                   | None => VBool false
                   end); simpl; [reflexivity | now rewrite string_app_nil_r].
Qed.

Lemma block_line_indented (block_type content : value) (indent_str line : string) :
  block_line block_type content indent_str = Ok line ->
  exists rest, line = indent_str ++ rest.
Proof.
  unfold block_line.
  repeat match goal with
         | |- context [if eq_str block_type ?name then _ else _] =>
             destruct (eq_str block_type name)
         end;
    intros H;
    repeat match goal with
           | H : rbind _ _ = Ok _ |- _ =>
               apply rbind_ok in H; destruct H as [? [? H]]
           end;
    injection H as <-; eexists; reflexivity.
Qed.

(** X1: on a block whose present fields have the JSON type the renderer
    reads them at (its [type] a string, its payload a dict, run lists made
    of dicts with string texts, [file], [external] and [icon] dicts), the
    renderer returns a text whatever fields are missing. *)
Theorem format_block_returns_on_shaped (block : dict) (indent : Z) :
  block_ok block = true -> exists out, format_block block indent = Ok out.
Proof. apply format_block_total. Qed.

Lemma format_block_returns_on_shaped_witness :
  block_ok [("type", VStr "image"); ("image", VDict [])] = true
  /\ exists out, format_block [("type", VStr "image"); ("image", VDict [])] 3 = Ok out.
Proof.
  split; [reflexivity|].
  apply (format_block_returns_on_shaped [("type", VStr "image"); ("image", VDict [])] 3).
  reflexivity.
Defined.

(** X2: whatever the renderer returns starts with the indentation, two
    spaces per level. *)
Theorem format_block_indented (block : dict) (indent : Z) (out : string) :
  format_block block indent = Ok out ->
  exists rest, out = str_mul "  " indent ++ rest.
Proof.
  unfold format_block. intros H.
  apply rbind_ok in H. destruct H as [unsupported [_ H]].
  destruct unsupported.
  - injection H as <-. eexists. reflexivity.
  - apply rbind_ok in H. destruct H as [content [_ H]].
    apply rbind_ok in H. destruct H as [line [Hline H]].
    apply block_line_indented in Hline. destruct Hline as [rest ->].
    injection H as <-.
    destruct (truthy (dict_get block "has_children" (VBool false))); simpl.
    + rewrite string_app_assoc. eexists. reflexivity.
    + eexists. reflexivity.
Qed.

Lemma format_block_indented_witness :
  format_block toggle_with_children 2
  = Ok ("    ▶ More" ++ nl ++ "    " ++ children_note)
  /\ exists rest,
       "    ▶ More" ++ nl ++ "    " ++ children_note = str_mul "  " 2 ++ rest.
Proof.
  split; [reflexivity|].
  apply (format_block_indented toggle_with_children 2). reflexivity.
Defined.

(** X3: an indent of zero or less indents nothing: the rendering is that
    at indent 0. *)
Theorem format_block_negative_indent (block : dict) (indent : Z) :
  indent <= 0 -> format_block block indent = format_block block 0.
Proof.
  intros H. unfold format_block, str_mul.
  replace (Z.to_nat indent) with (Z.to_nat 0) by (simpl; lia). reflexivity.
Qed.

Lemma format_block_negative_indent_witness :
  -4 <= 0 /\ format_block toggle_with_children (-4) = format_block toggle_with_children 0.
Proof.
  assert (H : -4 <= 0) by lia.
  split; [exact H|]. exact (format_block_negative_indent toggle_with_children (-4) H).
Defined.

(** X4: the decorated types.  A paragraph, a heading, a list item, a toggle
    or a quote whose runs concatenate to [text] renders as the indentation,
    the decoration of its type and the text, then the note about children
    if it has any; a numbered item is always numbered 1. *)
Theorem format_block_decorated (block : dict) (indent : Z) (t mark : string)
    (content : value) (text : string) :
  In (t, mark) decorations ->
  lookup "type" block = Some (VStr t) ->
  lookup t block = Some content ->
  text_of content "rich_text" = Ok text ->
  format_block block indent
  = Ok (str_mul "  " indent ++ mark ++ text ++ children_suffix block indent).
Proof.
  intros Hin Htype Hpayload Htext.
  assert (Hne : is_empty t = false).
  { simpl in Hin. repeat destruct Hin as [Hin|Hin]; try contradiction;
      injection Hin as <- <-; reflexivity. }
  rewrite (format_block_supported block indent t content Htype Hne Hpayload).
  simpl in Hin.
  repeat destruct Hin as [Hin|Hin]; try contradiction;
    injection Hin as <- <-; unfold block_line; simpl eq_str; cbv iota;
    rewrite Htext; simpl; rewrite ?string_app_assoc; reflexivity.
Qed.

Lemma format_block_decorated_witness :
  In ("heading_2", "## ") decorations
  /\ format_block [("type", VStr "heading_2");
                   ("heading_2", VDict [("rich_text", VList [run_of "Plan"; run_of " B"])])] 1
     = Ok "  ## Plan B".
Proof.
  assert (H : In ("heading_2", "## ") decorations) by (simpl; tauto).
  split; [exact H|].
  apply (format_block_decorated
           [("type", VStr "heading_2");
            ("heading_2", VDict [("rich_text", VList [run_of "Plan"; run_of " B"])])]
           1 "heading_2" "## "
           (VDict [("rich_text", VList [run_of "Plan"; run_of " B"])]) "Plan B" H);
    reflexivity.
Defined.

(** X5: a type without a branch of its own renders as its name in
    brackets, whatever its payload is (the payload is not read, so even a
    null payload is accepted). *)
Theorem format_block_unhandled_type (block : dict) (indent : Z) (t : string)
    (content : value) :
  ~ In t handled_types ->
  is_empty t = false ->
  lookup "type" block = Some (VStr t) ->
  lookup t block = Some content ->
  format_block block indent
  = Ok (str_mul "  " indent ++ "[" ++ t ++ " block]" ++ children_suffix block indent).
Proof.
  intros Hnot Hne Htype Hpayload.
  rewrite (format_block_supported block indent t content Htype Hne Hpayload).
  unfold block_line.
  repeat match goal with
         | |- context [if eq_str (VStr t) ?name then _ else _] =>
             let E := fresh "E" in
             destruct (eq_str (VStr t) name) eqn:E;
             [exfalso; simpl in E; apply String.eqb_eq in E; apply Hnot;
              rewrite E; simpl; tauto|]
         end.
  cbn [rbind str]. rewrite !string_app_assoc. reflexivity.
Qed.

Lemma format_block_unhandled_type_witness :
  ~ In "bookmark" handled_types
  /\ format_block [("type", VStr "bookmark"); ("bookmark", VNone)] 0
     = Ok "[bookmark block]".
Proof.
  assert (H : ~ In "bookmark" handled_types).
  { simpl. intros H. repeat destruct H as [H|H]; try discriminate H. exact H. }
  split; [exact H|].
  apply (format_block_unhandled_type [("type", VStr "bookmark"); ("bookmark", VNone)]
           0 "bookmark" VNone H); reflexivity.
Defined.

(** X6: a divider and a table render as fixed texts whatever their payload
    is. *)
Theorem format_block_fixed_lines (block : dict) (indent : Z) (t : string)
    (content : value) :
  lookup "type" block = Some (VStr t) ->
  lookup t block = Some content ->
  (t = "divider" ->
   format_block block indent
   = Ok (str_mul "  " indent ++ "---" ++ children_suffix block indent))
  /\ (t = "table" ->
      format_block block indent
      = Ok (str_mul "  " indent ++ "[Table - use get_table_content to view]"
            ++ children_suffix block indent)).
Proof.
  intros Htype Hpayload.
  split; intros ->;
    rewrite (format_block_supported block indent _ content Htype eq_refl Hpayload);
    simpl; rewrite !string_app_assoc; reflexivity.
Qed.

Lemma format_block_fixed_lines_witness :
  format_block [("type", VStr "divider"); ("divider", VNone)] 1 = Ok "  ---".
Proof.
  apply (format_block_fixed_lines [("type", VStr "divider"); ("divider", VNone)]
           1 "divider" VNone eq_refl eq_refl).
  reflexivity.
Defined.

(** ** Rich text *)

Lemma join_strings_cons (x : string) (rest : list string) :
  join_strings EmptyString (x :: rest) = x ++ join_strings EmptyString rest.
Proof.
  destruct rest; simpl; [now rewrite string_app_nil_r | reflexivity].
Qed.

Lemma join_strings_app (a b : list string) :
  join_strings EmptyString (List.app a b)
  = join_strings EmptyString a ++ join_strings EmptyString b.
Proof.
  induction a as [|x a IH]; [reflexivity|].
  rewrite <- app_comm_cons, !join_strings_cons, IH, string_app_assoc. reflexivity.
Qed.

Lemma join_inv (parts : list value) (t : string) :
  join EmptyString parts = Ok t ->
  exists ss, rmap as_str parts = Ok ss /\ t = join_strings EmptyString ss.
Proof.
  unfold join. intros H. apply rbind_ok in H. destruct H as [ss [Hss H]].
  injection H as <-. exists ss. auto.
Qed.

(** X7: the text of a run list is the concatenation, in order and with no
    separator, of what each run carries; a run without [plain_text]
    carries nothing. *)
Theorem plain_text_in_order (l : list value) :
  runs_ok (VList l) = true ->
  plain_text (VList l) = Ok (join_strings EmptyString (map run_string l)).
Proof.
  simpl. intros H. unfold plain_text. simpl iter. cbn [rbind].
  assert (G : rmap (fun text_item => get text_item "plain_text" (VStr EmptyString)) l
              = Ok (map VStr (map run_string l))).
  { induction l as [|run l IH]; [reflexivity|].
    simpl in H. apply andb_prop in H. destruct H as [Hrun Hl].
    simpl. rewrite (IH Hl).
    destruct run as [ | | | | | |d]; simpl in Hrun; try discriminate.
    unfold run_string. simpl. unfold dict_get.
    destruct (lookup "plain_text" d) as [[ | | | |s| |]|]; try discriminate; reflexivity. }
  rewrite G. cbn [rbind]. unfold join.
  assert (J : forall ss, rmap as_str (map VStr ss) = Ok ss).
  { induction ss as [|x ss IH]; simpl; [reflexivity | now rewrite IH]. }
  rewrite J. reflexivity.
Qed.

Lemma plain_text_in_order_witness :
  runs_ok (VList [run_of "Buy "; VDict [("href", VNone)]; run_of "milk"]) = true
  /\ plain_text (VList [run_of "Buy "; VDict [("href", VNone)]; run_of "milk"])
     = Ok "Buy milk".
Proof.
  split; [reflexivity|].
  exact (plain_text_in_order [run_of "Buy "; VDict [("href", VNone)]; run_of "milk"]
           eq_refl).
Defined.

(** X8: concatenation composes: the text of two run lists put end to end
    is the text of the first followed by the text of the second. *)
Theorem plain_text_app (l1 l2 : list value) (t1 t2 : string) :
  plain_text (VList l1) = Ok t1 ->
  plain_text (VList l2) = Ok t2 ->
  plain_text (VList (List.app l1 l2)) = Ok (t1 ++ t2).
Proof.
  unfold plain_text. simpl iter. cbn [rbind]. intros H1 H2.
  apply rbind_ok in H1. destruct H1 as [texts1 [G1 J1]].
  apply rbind_ok in H2. destruct H2 as [texts2 [G2 J2]].
  apply join_inv in J1. destruct J1 as [ss1 [S1 ->]].
  apply join_inv in J2. destruct J2 as [ss2 [S2 ->]].
  rewrite (rmap_app _ l1 l2 texts1 texts2 G1 G2). cbn [rbind]. unfold join.
  rewrite (rmap_app _ texts1 texts2 ss1 ss2 S1 S2). cbn [rbind].
  rewrite join_strings_app. reflexivity.
Qed.

Lemma plain_text_app_witness :
  plain_text (VList (List.app [run_of "a"; run_of "b"] [run_of "c"])) = Ok ("ab" ++ "c").
Proof.
  apply (plain_text_app [run_of "a"; run_of "b"] [run_of "c"] "ab" "c"); reflexivity.
Defined.

Lemma rmap_get_dicts (k : string) (default : value) (l : list value) :
  forallb is_dict l = true ->
  rmap (fun x => get x k default) l
  = Ok (map (fun x => match x with VDict d => dict_get d k default | _ => VNone end) l).
Proof.
  induction l as [|x l IH]; [reflexivity|].
  simpl. intros H. apply andb_prop in H. destruct H as [Hx Hl].
  destruct x; try discriminate. simpl. rewrite (IH Hl). reflexivity.
Qed.

Lemma rmap_as_str_fails (vs : list value) :
  existsb (fun v => negb (is_str v)) vs = true ->
  rmap as_str vs = Raise TypeError.
Proof.
  induction vs as [|v vs IH]; simpl; [discriminate|].
  intros H. destruct v; simpl in *; try reflexivity.
  rewrite (IH H). reflexivity.
Qed.

(** X9: a run whose [plain_text] is there but is not a string (null, for
    one) makes the concatenation raise [TypeError]: the default only
    covers a missing key. *)
Theorem plain_text_rejects_non_string (l : list value) :
  forallb is_dict l = true ->
  existsb (fun run => negb (is_str (run_text run))) l = true ->
  plain_text (VList l) = Raise TypeError.
Proof.
  intros Hdicts Hbad. unfold plain_text. simpl iter. cbn [rbind].
  rewrite (rmap_get_dicts "plain_text" (VStr EmptyString) l Hdicts). cbn [rbind].
  unfold join. rewrite rmap_as_str_fails; [reflexivity|].
  rewrite existsb_exists in *. destruct Hbad as [run [Hin Hrun]].
  exists (run_text run). split; [|exact Hrun].
  apply in_map_iff. exists run. split; [|exact Hin].
  unfold run_text. destruct run; reflexivity.
Qed.

Lemma plain_text_rejects_non_string_witness :
  plain_text (VList [run_of "ok"; VDict [("plain_text", VNone)]]) = Raise TypeError.
Proof.
  apply (plain_text_rejects_non_string [run_of "ok"; VDict [("plain_text", VNone)]]);
    reflexivity.
Defined.

(** ** Images, to-dos and lists of blocks *)

(** X10: an image takes its URL from [file] whenever that key is there,
    also when [external] is there too, and shows its caption after a dash
    only when the caption is not empty. *)
Theorem format_block_image_prefers_file (block : dict) (indent : Z)
    (c file : dict) (caption : string) :
  lookup "type" block = Some (VStr "image") ->
  lookup "image" block = Some (VDict c) ->
  text_of (VDict c) "caption" = Ok caption ->
  lookup "file" c = Some (VDict file) ->
  format_block block indent
  = Ok (str_mul "  " indent
        ++ "[Image" ++ (if is_empty caption then EmptyString else " - " ++ caption)
        ++ "](" ++ str (dict_get file "url" (VStr EmptyString)) ++ ")"
        ++ children_suffix block indent).
Proof.
  intros Htype Hpayload Hcaption Hfile.
  rewrite (format_block_supported block indent "image" (VDict c) Htype eq_refl Hpayload).
  unfold block_line. simpl eq_str. cbv iota. rewrite Hcaption. cbn [rbind].
  simpl str_in. unfold has_key. rewrite Hfile. cbn [rbind].
  simpl getitem. rewrite Hfile. cbn [rbind get].
  destruct (is_empty caption); cbn [rbind];
    rewrite !string_app_assoc; simpl; rewrite ?string_app_assoc; reflexivity.
Qed.

Lemma format_block_image_prefers_file_witness :
  format_block logo_image 0 = Ok "[Image - Logo](http://f)".
Proof.
  apply (format_block_image_prefers_file logo_image 0
           [("external", VDict [("url", VStr "http://e")]);
            ("file", VDict [("url", VStr "http://f")]);
            ("caption", VList [run_of "Logo"])]
           [("url", VStr "http://f")] "Logo"); reflexivity.
Defined.

(** X11: a to-do shows the ticked box exactly when its [checked] field is
    truthy; a to-do whose [checked] is missing, null or false shows the
    open box. *)
Theorem format_block_to_do_box (block : dict) (indent : Z) (c : dict) (text : string) :
  lookup "type" block = Some (VStr "to_do") ->
  lookup "to_do" block = Some (VDict c) ->
  text_of (VDict c) "rich_text" = Ok text ->
  format_block block indent
  = Ok (str_mul "  " indent
        ++ (if truthy (dict_get c "checked" (VBool false)) then "✓" else "☐")
        ++ " " ++ text ++ children_suffix block indent).
Proof.
  intros Htype Hpayload Htext.
  rewrite (format_block_supported block indent "to_do" (VDict c) Htype eq_refl Hpayload).
  unfold block_line. simpl eq_str. cbv iota. rewrite Htext. cbn [rbind get].
  destruct (truthy (dict_get c "checked" (VBool false)));
    rewrite !string_app_assoc; reflexivity.
Qed.

Lemma format_block_to_do_box_witness :
  format_block open_to_do 0 = Ok "☐ Call".
Proof.
  apply (format_block_to_do_box open_to_do 0
           [("checked", VNone); ("rich_text", VList [run_of "Call"])] "Call");
    reflexivity.
Defined.

(** X12: the loop over blocks keeps the order, never yields an empty
    entry (a block that renders to the empty text, such as a paragraph
    without text, is dropped) and so yields at most one entry per block. *)
Theorem render_blocks_no_blank (blocks : list value) (out : list string) :
  render_blocks blocks = Ok out ->
  Forall (fun s => is_empty s = false) out
  /\ (List.length out <= List.length blocks)%nat.
Proof.
  revert out. induction blocks as [|block blocks IH]; simpl; intros out H.
  - injection H as <-. split; [apply Forall_nil | simpl; lia].
  - apply rbind_ok in H. destruct H as [block_content [_ H]].
    apply rbind_ok in H. destruct H as [more [Hmore H]].
    destruct (IH more Hmore) as [Hall Hlen].
    injection H as <-.
    destruct (is_empty block_content) eqn:E.
    + split; [exact Hall | lia].
    + split; [apply Forall_cons; assumption | simpl; lia].
Qed.

Lemma render_blocks_no_blank_witness :
  render_blocks [VDict [("type", VStr "paragraph"); ("paragraph", VDict [])];
                 VDict [("type", VStr "divider"); ("divider", VDict [])]]
  = Ok ["---"]
  /\ Forall (fun s => is_empty s = false) ["---"]
  /\ (List.length ["---"] <= 2)%nat.
Proof.
  split; [reflexivity|].
  apply (render_blocks_no_blank
           [VDict [("type", VStr "paragraph"); ("paragraph", VDict [])];
            VDict [("type", VStr "divider"); ("divider", VDict [])]] ["---"]).
  reflexivity.
Defined.

(** ** What the tools do once the credential is there *)

Lemma requests_of_app {A} (t : tool A) (w : world) (sent : list request) :
  network_calls (log (snd (t w))) = List.app (network_calls (log w)) sent ->
  requests_of t w = sent.
Proof.
  intros H. unfold requests_of. rewrite H.
  rewrite skipn_app, skipn_all, Nat.sub_diag. reflexivity.
Qed.

Lemma calls_after_event (w : world) (e : event) :
  network_calls (log (with_event w e))
  = List.app (network_calls (log w)) (network_calls [e]).
Proof. simpl. apply network_calls_app. Qed.

Lemma block_children_run (block_id : string) (ctx : option Context) (w : world) :
  truthy_opt (environ w) = true ->
  let sent := get_request (environ w) (children_url block_id) in
  let w1 := with_event (with_key w (environ w)) (Sent sent) in
  get_block_children block_id ctx w
  = match remote w (List.length (network_calls (log w))) sent with
    | None => (Raise TransportError, w1)
    | Some resp =>
        (if negb (status_code resp =? 200)
         then Ok (error_text "Error retrieving block children" resp)
         else data <- response_json resp ;; format_children data,
         w1)
    end.
Proof.
  intros H sent w1. unfold get_block_children, bind.
  rewrite (check_api_key_present ctx w H).
  unfold client_get, bind, get_headers, send.
  cbn [NOTION_API_KEY with_event with_key remote log].
  fold (children_url block_id). fold (get_request (environ w) (children_url block_id)).
  fold sent.
  destruct (remote w _ sent) as [resp|]; [|reflexivity].
  destruct (negb (status_code resp =? 200)); [reflexivity|].
  unfold lift. destruct (response_json resp); reflexivity.
Qed.

Lemma page_run (page_id : string) (ctx : option Context) (w : world) :
  truthy_opt (environ w) = true ->
  let n := List.length (network_calls (log w)) in
  let first := get_request (environ w) (page_url page_id) in
  let second := get_request (environ w) (children_url page_id) in
  let w1 := with_event
              (with_key (with_event w (LogInfo "get_page_content" page_id)) (environ w))
              (Sent first) in
  let w2 := with_event w1 (Sent second) in
  get_page_content page_id ctx w
  = match remote w n first with
    | None => (Raise TransportError, w1)
    | Some resp1 =>
        if negb (status_code resp1 =? 200)
        then (Ok (error_text "Error retrieving page" resp1), w1)
        else
          match json resp1 with
          | None => (Raise JSONDecodeError, w1)
          | Some page_data =>
              match remote w (S n) second with
              | None => (Raise TransportError, w2)
              | Some resp2 =>
                  (if negb (status_code resp2 =? 200)
                   then Ok (error_text "Error retrieving page content" resp2)
                   else blocks_data <- response_json resp2 ;;
                        format_page page_data blocks_data,
                   w2)
              end
          end
    end.
Proof.
  intros H n first second w1 w2. unfold get_page_content, bind.
  unfold emit at 1.
  rewrite (check_api_key_present ctx (with_event w _) H).
  unfold client_get, bind, get_headers, send.
  cbn [NOTION_API_KEY with_event with_key remote log environ].
  fold (page_url page_id). fold (children_url page_id).
  fold (get_request (environ w) (page_url page_id)).
  fold (get_request (environ w) (children_url page_id)).
  fold first. fold second.
  rewrite network_calls_app. cbn [network_calls]. rewrite app_nil_r. fold n.
  destruct (remote w n first) as [resp1|]; [|reflexivity].
  destruct (negb (status_code resp1 =? 200)); [reflexivity|].
  unfold lift, response_json at 1.
  destruct (json resp1) as [page_data|]; [|reflexivity].
  cbn [NOTION_API_KEY with_event with_key remote log environ].
  fold (get_request (environ w) (children_url page_id)). fold second.
  rewrite !network_calls_app. cbn [network_calls].
  rewrite app_nil_r, length_app. cbn [List.length]. rewrite Nat.add_1_r. fold n.
  destruct (remote w (S n) second) as [resp2|]; [|reflexivity].
  destruct (negb (status_code resp2 =? 200)); [reflexivity|].
  destruct (response_json resp2); reflexivity.
Qed.

Lemma database_run (database_id : string) (max_pages : Z) (ctx : option Context)
    (w : world) :
  truthy_opt (environ w) = true ->
  let n := List.length (network_calls (log w)) in
  let first := get_request (environ w) (database_url database_id) in
  let second := post_request (environ w) (query_url database_id)
                  (query_payload max_pages) in
  let w1 := with_event (with_key w (environ w)) (Sent first) in
  let w2 := with_event w1 (Sent second) in
  get_database_content database_id max_pages ctx w
  = match remote w n first with
    | None => (Raise TransportError, w1)
    | Some resp1 =>
        if negb (status_code resp1 =? 200)
        then (Ok (error_text "Error retrieving database" resp1), w1)
        else
          match json resp1 with
          | None => (Raise JSONDecodeError, w1)
          | Some db_data =>
              match remote w (S n) second with
              | None => (Raise TransportError, w2)
              | Some resp2 =>
                  (if negb (status_code resp2 =? 200)
                   then Ok (error_text "Error querying database" resp2)
                   else query_data <- response_json resp2 ;;
                        format_database db_data query_data,
                   w2)
              end
          end
    end.
Proof.
  intros H n first second w1 w2. unfold get_database_content, bind.
  rewrite (check_api_key_present ctx w H).
  unfold client_get, client_post, bind, get_headers, send.
  cbn [NOTION_API_KEY with_event with_key remote log environ].
  fold (database_url database_id). fold (query_url database_id).
  fold (get_request (environ w) (database_url database_id)). fold first. fold n.
  destruct (remote w n first) as [resp1|]; [|reflexivity].
  destruct (negb (status_code resp1 =? 200)); [reflexivity|].
  unfold lift, response_json at 1.
  destruct (json resp1) as [db_data|]; [|reflexivity].
  cbn [NOTION_API_KEY with_event with_key remote log environ].
  fold (query_payload max_pages).
  fold (post_request (environ w) (query_url database_id) (query_payload max_pages)).
  fold second.
  rewrite !network_calls_app. cbn [network_calls].
  rewrite length_app. cbn [List.length]. rewrite Nat.add_1_r. fold n.
  destruct (remote w (S n) second) as [resp2|]; [|reflexivity].
  destruct (negb (status_code resp2 =? 200)); [reflexivity|].
  destruct (response_json resp2); reflexivity.
Qed.

Lemma status_not_200 (resp : response) :
  status_code resp <> 200 -> negb (status_code resp =? 200) = true.
Proof. intros H. apply Z.eqb_neq in H. rewrite H. reflexivity. Qed.

(** ** Block children *)

(** X13: when the children request is answered with a status other than
    200, the tool returns (it does not raise) a text that names the status
    and repeats the body, whether or not the body is JSON. *)
Theorem get_block_children_error_text (block_id : string) (ctx : option Context)
    (w : world) (resp : response) :
  truthy_opt (environ w) = true ->
  remote w (List.length (network_calls (log w)))
    (get_request (environ w) (children_url block_id)) = Some resp ->
  status_code resp <> 200 ->
  fst (get_block_children block_id ctx w)
  = Ok ("Error retrieving block children: " ++ str_of_Z (status_code resp)
        ++ " - " ++ text resp).
Proof.
  intros H Hresp Hstatus. rewrite (block_children_run block_id ctx w H).
  rewrite Hresp, (status_not_200 resp Hstatus). reflexivity.
Qed.

Lemma get_block_children_error_text_witness :
  fst (get_block_children "b1" (Some HostContext)
         (online (Some "secret") (plain_answer 404 "Not Found")))
  = Ok "Error retrieving block children: 404 - Not Found".
Proof.
  apply (get_block_children_error_text "b1" (Some HostContext)
           (online (Some "secret") (plain_answer 404 "Not Found"))
           (plain_answer 404 "Not Found")).
  - reflexivity.
  - reflexivity.
  - discriminate.
Defined.

(** X14: when the children request is answered with status 200 and the
    body's [results] is missing, null or empty, the tool returns exactly
    the text saying the block has no children. *)
Theorem get_block_children_none (block_id : string) (ctx : option Context)
    (w : world) (resp : response) (body : dict) :
  truthy_opt (environ w) = true ->
  remote w (List.length (network_calls (log w)))
    (get_request (environ w) (children_url block_id)) = Some resp ->
  status_code resp = 200 ->
  json resp = Some (VDict body) ->
  truthy (dict_get body "results" (VList [])) = false ->
  fst (get_block_children block_id ctx w) = Ok "This block has no children.".
Proof.
  intros H Hresp Hstatus Hjson Hresults. rewrite (block_children_run block_id ctx w H).
  rewrite Hresp, Hstatus. unfold response_json. rewrite Hjson. simpl.
  unfold format_children. simpl get. cbn [rbind]. rewrite Hresults. reflexivity.
Qed.

Lemma get_block_children_none_witness :
  fst (get_block_children "b1" (Some HostContext)
         (online (Some "secret") (json_answer (VDict [("results", VNone)]))))
  = Ok "This block has no children.".
Proof.
  apply (get_block_children_none "b1" (Some HostContext)
           (online (Some "secret") (json_answer (VDict [("results", VNone)])))
           (json_answer (VDict [("results", VNone)])) [("results", VNone)]);
    reflexivity.
Defined.



(** ** Pages and databases: two requests, the second only after the first *)

(** X16: with the credential there, a page report first asks for the page
    and then, only if that was answered with status 200 and a JSON body,
    for the page's children; every request carries the key just read from
    the environment. *)
Theorem get_page_content_requests (page_id : string) (ctx : option Context) (w : world) :
  truthy_opt (environ w) = true ->
  requests_of (get_page_content page_id ctx) w
  = get_request (environ w) (page_url page_id)
    :: (if proceeds (remote w (List.length (network_calls (log w)))
                       (get_request (environ w) (page_url page_id)))
        then [get_request (environ w) (children_url page_id)]
        else []).
Proof.
  intros H. apply requests_of_app.
  rewrite (page_run page_id ctx w H). unfold proceeds.
  destruct (remote w _ (get_request (environ w) (page_url page_id))) as [resp1|].
  - destruct (status_code resp1 =? 200); cbn [negb andb].
    + destruct (json resp1) as [page_data|].
      * destruct (remote w _ _) as [resp2|]; cbn [snd];
          rewrite !calls_after_event; cbn [network_calls log with_key with_event];
          rewrite !network_calls_app; cbn [network_calls];
          rewrite ?app_nil_r, <- ?app_assoc; reflexivity.
      * cbn [snd]. rewrite !calls_after_event. cbn [network_calls log with_key with_event].
        rewrite !network_calls_app. cbn [network_calls]. rewrite ?app_nil_r. reflexivity.
    + cbn [snd]. rewrite !calls_after_event. cbn [network_calls log with_key with_event].
      rewrite !network_calls_app. cbn [network_calls]. rewrite ?app_nil_r. reflexivity.
  - cbn [snd]. rewrite !calls_after_event. cbn [network_calls log with_key with_event].
    rewrite !network_calls_app. cbn [network_calls]. rewrite ?app_nil_r. reflexivity.
Qed.

Lemma get_page_content_requests_witness :
  requests_of (get_page_content "p1" (Some HostContext))
    (scripted (Some "secret") (Some (plain_answer 404 "Not Found")) None)
  = [get_request (Some "secret") (page_url "p1")].
Proof.
  apply (get_page_content_requests "p1" (Some HostContext)
           (scripted (Some "secret") (Some (plain_answer 404 "Not Found")) None)).
  reflexivity.
Defined.

(** X17: a page request answered with a status other than 200 ends the
    page report with a text naming the status and repeating the body; a
    children request answered so ends it with the text for the content. *)
Theorem get_page_content_error_texts (page_id : string) (ctx : option Context)
    (w : world) (resp1 : response) :
  truthy_opt (environ w) = true ->
  remote w (List.length (network_calls (log w)))
    (get_request (environ w) (page_url page_id)) = Some resp1 ->
  (status_code resp1 <> 200 ->
   fst (get_page_content page_id ctx w)
   = Ok ("Error retrieving page: " ++ str_of_Z (status_code resp1)
         ++ " - " ++ text resp1))
  /\ (forall page_data resp2,
        status_code resp1 = 200 ->
        json resp1 = Some page_data ->
        remote w (S (List.length (network_calls (log w))))
          (get_request (environ w) (children_url page_id)) = Some resp2 ->
        status_code resp2 <> 200 ->
        fst (get_page_content page_id ctx w)
        = Ok ("Error retrieving page content: " ++ str_of_Z (status_code resp2)
              ++ " - " ++ text resp2)).
Proof.
  intros H Hresp1. rewrite (page_run page_id ctx w H). rewrite Hresp1. split.
  - intros Hstatus. rewrite (status_not_200 resp1 Hstatus). reflexivity.
  - intros page_data resp2 Hstatus1 Hjson Hresp2 Hstatus2.
    rewrite Hstatus1, Hjson, Hresp2, (status_not_200 resp2 Hstatus2). reflexivity.
Qed.

Lemma get_page_content_error_texts_witness :
  fst (get_page_content "p1" (Some HostContext)
         (scripted (Some "secret") (Some (json_answer (VDict [])))
            (Some (plain_answer 500 "oops"))))
  = Ok "Error retrieving page content: 500 - oops".
Proof.
  apply (proj2 (get_page_content_error_texts "p1" (Some HostContext)
                  (scripted (Some "secret") (Some (json_answer (VDict [])))
                     (Some (plain_answer 500 "oops")))
                  (json_answer (VDict [])) eq_refl eq_refl)
           (VDict []) (plain_answer 500 "oops")).
  - reflexivity.
  - reflexivity.
  - reflexivity.
  - discriminate.
Defined.

(** X18: with the credential there, a database report first asks for the
    database and then, only if that was answered with status 200 and a
    JSON body, posts a query whose payload is the single entry
    [page_size = min(max_pages, 100)]: no filter, no sort, and no guard
    against zero or negative sizes. *)
Theorem get_database_content_requests (database_id : string) (max_pages : Z)
    (ctx : option Context) (w : world) :
  truthy_opt (environ w) = true ->
  requests_of (get_database_content database_id max_pages ctx) w
  = get_request (environ w) (database_url database_id)
    :: (if proceeds (remote w (List.length (network_calls (log w)))
                       (get_request (environ w) (database_url database_id)))
        then [post_request (environ w) (query_url database_id)
                [("page_size", VInt (Z.min max_pages 100))]]
        else []).
Proof.
  intros H. apply requests_of_app.
  rewrite (database_run database_id max_pages ctx w H). unfold proceeds.
  fold (query_payload max_pages).
  destruct (remote w _ (get_request (environ w) (database_url database_id))) as [resp1|].
  - destruct (status_code resp1 =? 200); cbn [negb andb].
    + destruct (json resp1) as [db_data|].
      * destruct (remote w _ _) as [resp2|]; cbn [snd];
          rewrite !calls_after_event; cbn [network_calls log with_key with_event];
          rewrite ?app_nil_r, <- ?app_assoc; reflexivity.
      * cbn [snd]. rewrite !calls_after_event. reflexivity.
    + cbn [snd]. rewrite !calls_after_event. reflexivity.
  - cbn [snd]. rewrite !calls_after_event. reflexivity.
Qed.

Lemma get_database_content_requests_witness :
  requests_of (get_database_content "d1" 250 (Some HostContext))
    (scripted (Some "secret") (Some (json_answer (VDict []))) None)
  = [get_request (Some "secret") (database_url "d1");
     post_request (Some "secret") (query_url "d1") [("page_size", VInt 100)]].
Proof.
  apply (get_database_content_requests "d1" 250 (Some HostContext)
           (scripted (Some "secret") (Some (json_answer (VDict []))) None)).
  reflexivity.
Defined.

(** X19: a database request answered with a status other than 200 ends
    the report with a text naming the status and repeating the body; a
    query answered so ends it with the text for the query. *)
Theorem get_database_content_error_texts (database_id : string) (max_pages : Z)
    (ctx : option Context) (w : world) (resp1 : response) :
  truthy_opt (environ w) = true ->
  remote w (List.length (network_calls (log w)))
    (get_request (environ w) (database_url database_id)) = Some resp1 ->
  (status_code resp1 <> 200 ->
   fst (get_database_content database_id max_pages ctx w)
   = Ok ("Error retrieving database: " ++ str_of_Z (status_code resp1)
         ++ " - " ++ text resp1))
  /\ (forall db_data resp2,
        status_code resp1 = 200 ->
        json resp1 = Some db_data ->
        remote w (S (List.length (network_calls (log w))))
          (post_request (environ w) (query_url database_id)
             [("page_size", VInt (Z.min max_pages 100))]) = Some resp2 ->
        status_code resp2 <> 200 ->
        fst (get_database_content database_id max_pages ctx w)
        = Ok ("Error querying database: " ++ str_of_Z (status_code resp2)
              ++ " - " ++ text resp2)).
Proof.
  intros H Hresp1. rewrite (database_run database_id max_pages ctx w H).
  rewrite Hresp1. split.
  - intros Hstatus. rewrite (status_not_200 resp1 Hstatus). reflexivity.
  - intros db_data resp2 Hstatus1 Hjson Hresp2 Hstatus2.
    unfold query_payload.
    rewrite Hstatus1, Hjson, Hresp2, (status_not_200 resp2 Hstatus2). reflexivity.
Qed.

Lemma get_database_content_error_texts_witness :
  fst (get_database_content "d1" 10 (Some HostContext)
         (online (Some "secret") (plain_answer 401 "Unauthorized")))
  = Ok "Error retrieving database: 401 - Unauthorized".
Proof.
  apply (proj1 (get_database_content_error_texts "d1" 10 (Some HostContext)
                  (online (Some "secret") (plain_answer 401 "Unauthorized"))
                  (plain_answer 401 "Unauthorized") eq_refl eq_refl)).
  discriminate.
Defined.

(** ** Search: what is sent and how failures surface *)

(** X20: with the credential there, a search sends exactly one request,
    whatever the answer: a POST to the search endpoint carrying the key
    just read from the environment and the payload built from the
    arguments. *)
Theorem search_notion_pages_requests (query filter_type : option string)
    (page_size : Z) (ctx : option Context) (w : world) :
  truthy_opt (environ w) = true ->
  requests_of (search_notion_pages query filter_type page_size ctx) w
  = [post_request (environ w) "https://api.notion.com/v1/search"
       (search_payload query filter_type page_size)].
Proof.
  intros H. apply requests_of_app.
  apply (search_sends query filter_type page_size ctx w H).
Qed.

Lemma search_notion_pages_requests_witness :
  requests_of (search_notion_pages (Some "plan") (Some "page") 5 (Some HostContext))
    (offline (Some "secret"))
  = [post_request (Some "secret") "https://api.notion.com/v1/search"
       [("query", VStr "plan"); ("page_size", VInt 5);
        ("filter", VDict [("value", VStr "page"); ("property", VStr "object")]);
        ("sort", VDict [("direction", VStr "descending");
                        ("timestamp", VStr "last_edited_time")])]].
Proof.
  apply (search_notion_pages_requests (Some "plan") (Some "page") 5 (Some HostContext)
           (offline (Some "secret"))).
  reflexivity.
Defined.

(** X21: a search answered with a status other than 200 returns a text
    naming the status and repeating the body only when the body is JSON;
    when it is not, the tool raises the decoder's error, because the body
    is decoded (to be printed) before the status is looked at.  The other
    three tools return their text in both cases. *)
Theorem search_notion_pages_error_answer (query filter_type : option string)
    (page_size : Z) (ctx : option Context) (w : world) (resp : response) :
  truthy_opt (environ w) = true ->
  remote w (List.length (network_calls (log w)))
    (search_request (environ w) query filter_type page_size) = Some resp ->
  status_code resp <> 200 ->
  fst (search_notion_pages query filter_type page_size ctx w)
  = match json resp with
    | Some _ => Ok ("Error: " ++ str_of_Z (status_code resp) ++ " - " ++ text resp)
    | None => Raise JSONDecodeError
    end.
Proof.
  intros H Hresp Hstatus. rewrite (search_run query filter_type page_size ctx w H).
  rewrite Hresp. destruct (json resp); [|reflexivity].
  rewrite (status_not_200 resp Hstatus). reflexivity.
Qed.

Lemma search_notion_pages_error_answer_witness :
  fst (search_notion_pages None None 10 (Some HostContext)
         (online (Some "secret") (plain_answer 502 "Bad Gateway")))
  = Raise JSONDecodeError.
Proof.
  apply (search_notion_pages_error_answer None None 10 (Some HostContext)
           (online (Some "secret") (plain_answer 502 "Bad Gateway"))
           (plain_answer 502 "Bad Gateway")).
  - reflexivity.
  - reflexivity.
  - discriminate.
Defined.

(** X22: nothing catches a failure of the HTTP layer: with the credential
    there and a remote side that does not answer, each of the four tools
    raises what the HTTP layer raised. *)
Theorem transport_failure_propagates (w : world) (ctx : option Context)
    (query filter_type : option string) (page_size max_pages : Z)
    (page_id database_id block_id : string) :
  truthy_opt (environ w) = true ->
  (forall r, remote w (List.length (network_calls (log w))) r = None) ->
  fst (search_notion_pages query filter_type page_size ctx w) = Raise TransportError
  /\ fst (get_page_content page_id ctx w) = Raise TransportError
  /\ fst (get_database_content database_id max_pages ctx w) = Raise TransportError
  /\ fst (get_block_children block_id ctx w) = Raise TransportError.
Proof.
  intros H Hdown.
  rewrite (search_run query filter_type page_size ctx w H),
    (page_run page_id ctx w H), (database_run database_id max_pages ctx w H),
    (block_children_run block_id ctx w H).
  rewrite !Hdown. repeat split.
Qed.

Lemma transport_failure_propagates_witness :
  fst (get_database_content "d1" 10 (Some HostContext) (offline (Some "secret")))
  = Raise TransportError.
Proof.
  apply (transport_failure_propagates (offline (Some "secret")) (Some HostContext)
           None None 10 10 "p1" "d1" "b1" eq_refl (fun _ => eq_refl)).
Defined.

(** X23: the credential is read afresh on every call: whatever the global
    held before (a key from an earlier call, or nothing), an invocation
    gives the same result and leaves the same world. *)
Theorem stale_key_is_ignored (w : world) (stale : option string) (ctx : option Context)
    (query filter_type : option string) (page_size max_pages : Z)
    (page_id database_id block_id : string) :
  search_notion_pages query filter_type page_size ctx (with_key w stale)
  = search_notion_pages query filter_type page_size ctx w
  /\ get_page_content page_id ctx (with_key w stale) = get_page_content page_id ctx w
  /\ get_database_content database_id max_pages ctx (with_key w stale)
     = get_database_content database_id max_pages ctx w
  /\ get_block_children block_id ctx (with_key w stale) = get_block_children block_id ctx w.
Proof.
  repeat split.
Qed.

(** ** The search payload *)

(** X24: every search payload ends with the same [sort] entry, most
    recently edited first, and has a [query] entry exactly when the query
    is a non-empty string. *)
Theorem search_payload_sort_and_query (query filter_type : option string)
    (page_size : Z) :
  lookup "sort" (search_payload query filter_type page_size)
  = Some (VDict [("direction", VStr "descending");
                 ("timestamp", VStr "last_edited_time")])
  /\ (exists front,
        search_payload query filter_type page_size
        = List.app front
            [("sort", VDict [("direction", VStr "descending");
                             ("timestamp", VStr "last_edited_time")])])
  /\ lookup "query" (search_payload query filter_type page_size)
     = match query with
       | Some q => if is_empty q then None else Some (VStr q)
       | None => None
       end.
Proof.
  unfold search_payload.
  destruct query as [q|]; [destruct q as [|c q]|]; simpl truthy_opt; cbv iota;
    destruct (truthy (VInt page_size));
    (destruct filter_type as [f|];
     [destruct (truthy_opt (Some f) && (String.eqb f "page" || String.eqb f "database"))|]);
    simpl; (split; [reflexivity|]); (split; [|reflexivity]);
    match goal with
    | |- exists front, ?l = _ => exists (removelast l); reflexivity
    end.
Qed.

(** X25: a [filter_type] that is the string [page] or the string
    [database] puts the object filter on that value into the payload. *)
Theorem search_payload_filter (query : option string) (f : string) (page_size : Z) :
  f = "page" \/ f = "database" ->
  lookup "filter" (search_payload query (Some f) page_size)
  = Some (VDict [("value", VStr f); ("property", VStr "object")]).
Proof.
  intros [-> | ->]; unfold search_payload;
    (destruct query as [q|]; [destruct (truthy_opt (Some q))|]);
    destruct (truthy (VInt page_size)); reflexivity.
Qed.

Lemma search_payload_filter_witness :
  lookup "filter" (search_payload (Some "plan") (Some "database") 0)
  = Some (VDict [("value", VStr "database"); ("property", VStr "object")]).
Proof.
  apply (search_payload_filter (Some "plan") "database" 0). right. reflexivity.
Defined.

(** ** More on the properties of a database entry *)

Lemma tagged_unlisted (t : string) (prop_data : value) (name : string) :
  String.eqb t name = false -> tagged (VStr t) prop_data name = Ok false.
Proof. intros H. unfold tagged. simpl. rewrite H. reflexivity. Qed.

Lemma eqb_unlisted (t name : string) (l : list string) :
  ~ In t l -> In name l -> String.eqb t name = false.
Proof.
  intros Hnot Hin. apply String.eqb_neq. intros ->. exact (Hnot Hin).
Qed.

(** X26: a property whose type has no branch of its own (a formula, a
    relation, people, ...) is shown as N/A whatever it holds. *)
Theorem property_unhandled_type (prop_name t : string) (d : dict) :
  ~ In t property_types ->
  lookup "type" d = Some (VStr t) ->
  property_line prop_name (VDict d) = Ok ("- " ++ prop_name ++ ": N/A").
Proof.
  intros Hnot Htype. unfold property_line, property_value. simpl get.
  unfold dict_get. rewrite Htype. cbn [rbind].
  rewrite !(tagged_unlisted t (VDict d))
    by (apply (eqb_unlisted t _ property_types Hnot); simpl; tauto).
  reflexivity.
Qed.

Lemma property_unhandled_type_witness :
  ~ In "people" property_types
  /\ property_line "Owner"
       (VDict [("type", VStr "people"); ("people", VList [VDict [("name", VStr "Ann")]])])
     = Ok "- Owner: N/A".
Proof.
  assert (H : ~ In "people" property_types).
  { simpl. intros H. repeat destruct H as [H|H]; try discriminate H. exact H. }
  split; [exact H|].
  apply (property_unhandled_type "Owner" "people"
           [("type", VStr "people"); ("people", VList [VDict [("name", VStr "Ann")]])] H).
  reflexivity.
Defined.

Lemma option_names_joined (options : list value) (ns : list string) :
  Forall2 names options ns ->
  option_names (VList options) = Ok (join_strings ", " ns).
Proof.
  intros H. unfold option_names. simpl iter. cbn [rbind].
  assert (G : rmap (fun option => get option "name" (VStr EmptyString)) options
              = Ok (map VStr ns)).
  { induction H as [|option n options ns [d [-> Hname]] _ IH]; [reflexivity|].
    simpl. unfold dict_get. rewrite Hname. simpl. rewrite IH. reflexivity. }
  rewrite G. cbn [rbind]. unfold join.
  assert (J : rmap as_str (map VStr ns) = Ok ns).
  { clear. induction ns as [|x ns IH]; simpl; [reflexivity | now rewrite IH]. }
  rewrite J. reflexivity.
Qed.

(** X27: a multi-select is shown as the names of its options, in order,
    separated by a comma and a space; no option gives the empty text. *)
Theorem property_multi_select (prop_name : string) (d : dict) (options : list value)
    (ns : list string) :
  lookup "type" d = Some (VStr "multi_select") ->
  lookup "multi_select" d = Some (VList options) ->
  Forall2 names options ns ->
  property_line prop_name (VDict d)
  = Ok ("- " ++ prop_name ++ ": " ++ join_strings ", " ns).
Proof.
  intros Htype Hvalue Hnames. unfold property_line, property_value. simpl get.
  unfold dict_get. rewrite Htype. cbn [rbind].
  rewrite !(tagged_unlisted "multi_select") by reflexivity. cbn [rbind].
  unfold tagged. simpl eq_str. cbv iota. simpl str_in. unfold has_key.
  rewrite Hvalue. cbn [rbind]. simpl getitem. rewrite Hvalue. cbn [rbind].
  rewrite (option_names_joined options ns Hnames). reflexivity.
Qed.

Lemma property_multi_select_witness :
  property_line "Tags"
    (VDict [("id", VStr "x"); ("type", VStr "multi_select");
            ("multi_select", VList [VDict [("id", VStr "1"); ("name", VStr "A")];
                                    VDict [("name", VStr "B"); ("color", VStr "red")]])])
  = Ok "- Tags: A, B".
Proof.
  apply (property_multi_select "Tags"
           [("id", VStr "x"); ("type", VStr "multi_select");
            ("multi_select", VList [VDict [("id", VStr "1"); ("name", VStr "A")];
                                    VDict [("name", VStr "B"); ("color", VStr "red")]])]
           [VDict [("id", VStr "1"); ("name", VStr "A")];
            VDict [("name", VStr "B"); ("color", VStr "red")]]
           ["A"; "B"]).
  - reflexivity.
  - reflexivity.
  - repeat constructor; eexists; split; reflexivity.
Defined.

(** X28: a date that starts at the text [start] is shown as that text,
    followed by [ to ] and the end when the date has a truthy [end]. *)
Theorem property_date_range (prop_name : string) (d date_obj : dict) (start : string) :
  lookup "type" d = Some (VStr "date") ->
  lookup "date" d = Some (VDict date_obj) ->
  date_obj <> [] ->
  lookup "start" date_obj = Some (VStr start) ->
  property_line prop_name (VDict d)
  = Ok ("- " ++ prop_name ++ ": " ++ start
        ++ (if truthy (dict_get date_obj "end" (VStr EmptyString))
            then " to " ++ str (dict_get date_obj "end" (VStr EmptyString))
            else EmptyString)).
Proof.
  intros Htype Hvalue Hne Hstart. unfold property_line, property_value. simpl get.
  unfold dict_get at 1. rewrite Htype. cbn [rbind].
  rewrite !(tagged_unlisted "date") by reflexivity. cbn [rbind].
  unfold tagged. simpl eq_str. cbv iota. simpl str_in. unfold has_key.
  rewrite Hvalue. cbn [rbind]. simpl getitem. rewrite Hvalue. cbn [rbind].
  assert (T : truthy (VDict date_obj) = true) by (destruct date_obj; [contradiction|reflexivity]).
  rewrite T. cbn [rbind get].
  set (end_ := dict_get date_obj "end" (VStr EmptyString)).
  unfold dict_get. rewrite Hstart. cbn [rbind].
  destruct (truthy end_); simpl.
  - reflexivity.
  - rewrite string_app_nil_r. reflexivity.
Qed.

Lemma property_date_range_witness :
  property_line "When"
    (VDict [("type", VStr "date");
            ("date", VDict [("start", VStr "2024-01-01"); ("end", VStr "2024-01-05")])])
  = Ok "- When: 2024-01-01 to 2024-01-05".
Proof.
  apply (property_date_range "When"
           [("type", VStr "date");
            ("date", VDict [("start", VStr "2024-01-01"); ("end", VStr "2024-01-05")])]
           [("start", VStr "2024-01-01"); ("end", VStr "2024-01-05")] "2024-01-01").
  - reflexivity.
  - reflexivity.
  - discriminate.
  - reflexivity.
Defined.

(** X29: the branches that iterate their value have no guard against
    null: a [title], [rich_text] or [multi_select] property holding null
    makes the extraction raise [TypeError]. *)
Theorem property_null_iterated (prop_name t : string) (d : dict) :
  In t iterated_types ->
  lookup "type" d = Some (VStr t) ->
  lookup t d = Some VNone ->
  property_line prop_name (VDict d) = Raise TypeError.
Proof.
  intros Hin Htype Hvalue. unfold property_line, property_value. simpl get.
  unfold dict_get. rewrite Htype. cbn [rbind].
  simpl in Hin. destruct Hin as [<-|[<-|[<-|[]]]];
    unfold tagged; simpl eq_str; cbv iota; simpl str_in; unfold has_key;
    rewrite Hvalue; cbn [rbind]; simpl getitem; rewrite Hvalue; reflexivity.
Qed.

Lemma property_null_iterated_witness :
  In "rich_text" iterated_types
  /\ property_line "Notes" (VDict [("type", VStr "rich_text"); ("rich_text", VNone)])
     = Raise TypeError.
Proof.
  assert (H : In "rich_text" iterated_types) by (simpl; tauto).
  split; [exact H|].
  apply (property_null_iterated "Notes" "rich_text"
           [("type", VStr "rich_text"); ("rich_text", VNone)] H); reflexivity.
Defined.

(** ** The title of a page *)

(** X30: the title of a page report comes from the property called
    [title] when the page has a truthy one, else from the property called
    [Name]; a page whose title property goes by any other name is called
    Untitled. *)
Theorem page_title_sources (page_data properties : dict) :
  lookup "properties" page_data = Some (VDict properties) ->
  (forall title_prop title_parts,
     (if truthy (dict_get properties "title" VNone)
      then dict_get properties "title" VNone
      else dict_get properties "Name" VNone) = VDict title_prop ->
     lookup "title" title_prop = Some title_parts ->
     truthy title_parts = true ->
     page_title (VDict page_data) = plain_text title_parts)
  /\ (lookup "title" properties = None ->
      lookup "Name" properties = None ->
      page_title (VDict page_data) = Ok "Untitled").
Proof.
  intros Hprops. unfold page_title. simpl str_in. unfold has_key. rewrite Hprops.
  cbn [rbind]. simpl getitem. rewrite Hprops. cbn [rbind get]. split.
  - intros title_prop title_parts Hchosen Hparts Htruthy.
    destruct (truthy (dict_get properties "title" VNone)) eqn:T; cbn [rbind];
      rewrite Hchosen;
      (assert (Tp : truthy (VDict title_prop) = true)
         by (destruct title_prop; [discriminate Hparts | reflexivity]));
      rewrite Tp; simpl str_in; unfold has_key; rewrite Hparts; cbn [rbind];
      simpl getitem; rewrite Hparts; cbn [rbind];
      unfold title_from; rewrite Htruthy; reflexivity.
  - intros Htitle Hname. unfold dict_get. rewrite Htitle, Hname. reflexivity.
Qed.

Lemma page_title_sources_witness :
  page_title
    (VDict [("id", VStr "p1");
            ("properties",
             VDict [("Name", VDict [("title", VList [run_of "Roadmap"])]);
                    ("title", VDict [("title", VList [run_of "Plan"])])])])
  = Ok "Plan".
Proof.
  apply (proj1 (page_title_sources
                  [("id", VStr "p1");
                   ("properties",
                    VDict [("Name", VDict [("title", VList [run_of "Roadmap"])]);
                           ("title", VDict [("title", VList [run_of "Plan"])])])]
                  [("Name", VDict [("title", VList [run_of "Roadmap"])]);
                   ("title", VDict [("title", VList [run_of "Plan"])])]
                  eq_refl)
           [("title", VList [run_of "Plan"])] (VList [run_of "Plan"]));
    reflexivity.
Defined.
